(** * DemoGraph: county statistics, drill-down navigation and visit history

    A shallow embedding of the data-carrying parts of the DemoGraph
    sources ([src/census.js], [src/utils/demographicBreakdowns.js] and the
    application script) together with the properties that its
    specification states about them, and further properties of the same
    code: what it does on missing and non-numeric data, what its cache,
    its county layer and its history panel keep invariant.

    Layout: the first half of the file holds the definitions, one module
    per source file; the second half holds the lemmas and theorems. *)

From Stdlib Require Import ZArith Floats.SpecFloat.
From stdpp Require Import base decidable option list strings pretty gmap.

Local Open Scope Z_scope.

(** ** The fragment of the JavaScript runtime the sources rely on *)

Module Js.

(** A JavaScript Number is an IEEE 754 binary64 value.  The arithmetic
    is the one of [SpecFloat] at precision 53, so every operation below
    rounds exactly as the runtime does. *)
Abbreviation number := spec_float.

Definition prec : Z := 53.
Definition emax : Z := 1024.

Definition NaN : number := S754_nan.
Definition zero : number := S754_zero false.
Definition of_Z (z : Z) : number := binary_normalize prec emax z 0 false.
Definition of_nat (n : nat) : number := of_Z (Z.of_nat n).

Definition add : number -> number -> number := SFadd prec emax.
Definition sub : number -> number -> number := SFsub prec emax.
Definition mul : number -> number -> number := SFmul prec emax.
Definition div : number -> number -> number := SFdiv prec emax.

(** [a < b], [a > b] and [a === b] on Numbers; all three are false as
    soon as one operand is [NaN]. *)
Definition lt (a b : number) : bool := SFltb a b.
Definition gt (a b : number) : bool := SFltb b a.
Definition strict_eq (a b : number) : bool := SFeqb a b.

(** A Number that is [0] or [-0]. *)
Definition is_zero (x : number) : Prop := ∃ s, x = S754_zero s.

(** [Number.isFinite]. *)
Definition isFinite (x : number) : bool :=
  match x with
  | S754_zero _ | S754_finite _ _ _ => true
  | S754_infinity _ | S754_nan => false
  end.

(** ToBoolean on a Number: [0], [-0] and [NaN] are falsy. *)
Definition truthy (x : number) : bool :=
  match x with
  | S754_zero _ | S754_nan => false
  | S754_infinity _ | S754_finite _ _ _ => true
  end.

(** [x || y] when both sides are Numbers. *)
Definition or_else (x y : number) : number := if truthy x then x else y.

(** The values that reach the modelled code: a cell of a JSON row or a
    property of a record is absent, [null], a Number or a String. *)
Inductive value :=
| Undefined
| Null
| Num (x : number)
| Str (s : string).

(** StringToNumber belongs to the runtime, not to the repository; the
    development is parametric in it. *)
Class Runtime := StringToNumber : string -> number.

(** [Number(v)] and unary [+v]. *)
Definition ToNumber `{Runtime} (v : value) : number :=
  match v with
  | Undefined => NaN
  | Null => zero
  | Num x => x
  | Str s => StringToNumber s
  end.

Definition ToBoolean (v : value) : bool :=
  match v with
  | Undefined | Null => false
  | Num x => truthy x
  | Str s => negb (String.eqb s "")
  end.

(** [row[i]]: reading past the end of an array yields [undefined]. *)
Definition index (row : list value) (i : nat) : value :=
  default Undefined (row !! i).

(** [row.slice(from, to)] for in-range, non-negative bounds. *)
Definition slice {A} (from to : nat) (row : list A) : list A :=
  take (to - from) (drop from row).

(** The result of [x.toFixed(1)].  [Digits neg n] stands for the decimal
    string whose digits are those of [n], with the point before the last
    one and a leading minus sign when [neg] holds, for instance
    [Digits false 500] for the string 50.0.  [Literal x] stands for
    [String(x)], which is what [toFixed] returns when [x] is not finite
    or when its magnitude reaches 10^21. *)
Inductive fixed :=
| Digits (neg : bool) (tenths : Z)
| Literal (x : number).

(** [Number.prototype.toFixed] with one fraction digit: the integer [n]
    for which [n / 10 - |x|] is as close to zero as possible, the larger
    one when there are two. *)
Definition toFixed1 (x : number) : fixed :=
  match x with
  | S754_zero _ => Digits false 0
  | S754_finite s m e =>
      if 0 <=? e then
        let v := Zpos m * 2 ^ e in
        if 10 ^ 21 <=? v then Literal x else Digits s (10 * v)
      else
        let k := - e in
        if 10 ^ 21 * 2 ^ k <=? Zpos m then Literal x
        else Digits s ((20 * Zpos m + 2 ^ k) `div` 2 ^ (k + 1))
  | S754_infinity _ | S754_nan => Literal x
  end.

(** The string itself.  [String(x)] for a finite [x] of magnitude 10^21
    or more needs the shortest-digits conversion of the runtime and is
    left out. *)
Definition fixed_string (f : fixed) : option string :=
  match f with
  | Digits neg n =>
      Some ((if neg then "-" else "") +:+ pretty (n `div` 10) +:+ "."
            +:+ pretty (n `mod` 10))
  | Literal S754_nan => Some "NaN"
  | Literal (S754_infinity s) => Some (if s then "-Infinity" else "Infinity")
  | Literal _ => None
  end.

(** Reading the string back with [Number(...)] or unary [+]: the double
    nearest to [n / 10]. *)
Definition of_fixed (f : fixed) : number :=
  match f with
  | Literal x => x
  | Digits s 0 => S754_zero s
  | Digits s (Zpos n) => div (S754_finite s n 0) (S754_finite false 10 0)
  | Digits _ (Zneg _) => NaN
  end.

(** [Math.round]: the nearest integer, the one closer to +∞ on a tie. *)
Definition Math_round (x : number) : number :=
  match x with
  | S754_finite s m e =>
      if 0 <=? e then x
      else
        let k := - e in
        let n := (2 * cond_Zopp s (Zpos m) + 2 ^ k) `div` 2 ^ (k + 1) in
        if n =? 0 then S754_zero s else of_Z n
  | _ => x
  end.

(** [Array.prototype.sort] with a comparator.  The language requires the
    sort to be stable and leaves the algorithm open; a stable insertion
    sort is used here.  An element moves behind its right neighbour
    exactly when the comparator returns a positive number. *)
Fixpoint sort_insert {A} (cmp : A -> A -> number) (x : A) (l : list A) : list A :=
  match l with
  | [] => [x]
  | y :: l' => if gt (cmp x y) zero then y :: sort_insert cmp x l' else x :: l
  end.

Definition Array_sort {A} (cmp : A -> A -> number) (l : list A) : list A :=
  foldr (sort_insert cmp) [] l.

(** [Array.prototype.find] together with the slot the element was read
    from.  Objects stored in distinct slots are distinct objects, so the
    slot number decides [===] between two elements of one array. *)
Fixpoint find_slot {A} (p : A -> bool) (l : list A) (i : nat) : option (nat * A) :=
  match l with
  | [] => None
  | x :: l' => if p x then Some (i, x) else find_slot p l' (S i)
  end.

(** The decimal-integer fragment of StringToNumber: the empty string,
    and digit strings with an optional minus sign, which is how the
    statistics service writes its counts.  Other literals are outside
    the fragment. *)
Fixpoint digits (s : string) (acc : Z) : option Z :=
  match s with
  | EmptyString => Some acc
  | String c s' =>
      let d := Z.of_N (Ascii.N_of_ascii c) - 48 in
      if (0 <=? d) && (d <=? 9) then digits s' (10 * acc + d) else None
  end.

Definition digits_to_number (s : string) : number :=
  match s with
  | EmptyString => zero
  | String c s' =>
      if (Ascii.N_of_ascii c =? 45)%N && negb (String.eqb s' "") then
        match digits s' 0 with Some z => SFopp (of_Z z) | None => NaN end
      else
        match digits s 0 with Some z => of_Z z | None => NaN end
  end.

Definition digits_runtime : Runtime := digits_to_number.

End Js.

(** ** [src/census.js]: the income distribution of [fetchCountyStats] *)

Module Census.
Import Js.

Section census.
Context `{!Runtime}.

(** [function num(x)]: the numeric value of a cell, [null] when it is
    not a finite number. *)
Definition num (x : value) : option number :=
  let n := ToNumber x in
  if isFinite n then Some n else None.

(** [const sum = arr => arr.reduce((a, v) => a + num(v), 0)]; a [null]
    operand of [+] counts as [0]. *)
Definition sum (arr : list value) : number :=
  foldl (λ a v, add a (default zero (num v))) zero arr.

(** [function pct(n, d)].  The denominator is [total], which is [null]
    when its cell is not numeric; [null > 0] is false. *)
Definition pct (n : number) (d : option number) : number :=
  match d with
  | Some d' =>
      if gt d' zero then of_fixed (toFixed1 (div (mul (of_Z 100) n) d'))
      else zero
  | None => zero
  end.

(** The [dist] array built by [fetchCountyStats] from the second row
    of the detail response,
    [detRow = [NAME, total, b2 ... b17, state, county]]. *)
Definition incomeDist (detRow : list value) : list (string * number) :=
  let total := num (index detRow 1) in
  let lt25 := sum (slice 2 6 detRow) in
  let p25_50 := sum (slice 6 10 detRow) in
  let p50_75 := sum (slice 10 13 detRow) in
  let p75_100 := sum (slice 13 15 detRow) in
  let gt100 := sum (slice 15 18 detRow) in
  [ ("< $25,000", pct lt25 total);
    ("$25,000 - $50,000", pct p25_50 total);
    ("$50,000 - $75,000", pct p50_75 total);
    ("$75,000 - $100,000", pct p75_100 total);
    ("> $100,000", pct gt100 total) ].

(** The dollar span of each raw bracket, lower bound included and
    upper bound excluded, as the statistics provider publishes table
    B19001.  Entry [j] describes variable [B19001_002E + j], that is
    cell [j + 2] of [detRow] in the order of the request in [detURL];
    the last bracket has no upper bound. *)
Definition B19001_spans : list (Z * option Z) :=
  [ (0, Some 10000); (10000, Some 15000); (15000, Some 20000);
    (20000, Some 25000); (25000, Some 30000); (30000, Some 35000);
    (35000, Some 40000); (40000, Some 45000); (45000, Some 50000);
    (50000, Some 60000); (60000, Some 75000); (75000, Some 100000);
    (100000, Some 125000); (125000, Some 150000);
    (150000, Some 200000); (200000, None) ].

(** The five canonical ranges named by the labels of [dist]. *)
Definition canonical_ranges : list (string * (Z * option Z)) :=
  [ ("< $25,000", (0, Some 25000));
    ("$25,000 - $50,000", (25000, Some 50000));
    ("$50,000 - $75,000", (50000, Some 75000));
    ("$75,000 - $100,000", (75000, Some 100000));
    ("> $100,000", (100000, None)) ].

(** A raw span lies within a canonical range. *)
Definition within (raw range : Z * option Z) : bool :=
  (range.1 <=? raw.1) &&
  match raw.2, range.2 with
  | _, None => true
  | Some hi, Some HI => hi <=? HI
  | None, Some _ => false
  end.

(** The cells of [detRow] whose brackets make up a canonical range. *)
Definition constituents (detRow : list value) (range : Z * option Z) : list value :=
  omap (λ cs : value * (Z * option Z),
          if within cs.2 range then Some cs.1 else None)
       (zip (drop 2 detRow) B19001_spans).

(** The distribution as the specification words it: every canonical
    range gets the percentage of the brackets whose spans make it up. *)
Definition canonicalDist (detRow : list value) : list (string * number) :=
  let total := num (index detRow 1) in
  (λ r : string * (Z * option Z),
     (r.1, pct (sum (constituents detRow r.2)) total)) <$> canonical_ranges.

End census.
End Census.

(** ** [src/utils/demographicBreakdowns.js] *)

Module Breakdowns.
Import Js.

Section breakdowns.
Context `{!Runtime}.

(** [data.K] and [data[k]] on a record keyed by variable code. *)
Definition field (data : gmap string value) (k : string) : value :=
  default Undefined (data !! k).

Record EthnicityBreakdown := {
  white : fixed;
  black : fixed;
  hispanic : fixed;
  asian : fixed;
  other : fixed
}.

(** [computeEthnicityBreakdown(data)], table B03002. *)
Definition computeEthnicityBreakdown (data : gmap string value)
  : option EthnicityBreakdown :=
  let total := ToNumber (field data "B03002_001E") in
  if negb (truthy total) then None
  else
    let N k := ToNumber (field data k) in
    Some {|
      white := toFixed1 (mul (div (N "B03002_003E") total) (of_Z 100));
      black := toFixed1 (mul (div (N "B03002_004E") total) (of_Z 100));
      hispanic := toFixed1 (mul (div (N "B03002_012E") total) (of_Z 100));
      asian := toFixed1 (mul (div (N "B03002_006E") total) (of_Z 100));
      other :=
        toFixed1
          (mul (div (add (add (add (add (N "B03002_007E")
                                        (N "B03002_008E"))
                                   (N "B03002_009E"))
                              (N "B03002_010E"))
                         (N "B03002_011E"))
                    total)
               (of_Z 100))
    |}.

Record GenerationalBreakdown := {
  genZ : fixed;
  millennial : fixed;
  genX : fixed;
  boomer : fixed;
  silent : fixed
}.

(** [function sumBins(keys)]: [data[k] || 0] replaces a falsy property
    by [0] before the conversion to a Number. *)
Definition sumBins (data : gmap string value) (keys : list string) : number :=
  foldl (λ sum k,
           let v := field data k in
           add sum (ToNumber (if ToBoolean v then v else Num zero)))
        zero keys.

(** [computeGenerationalBreakdown(data)], table B01001: the total is
    read from [B01001_001E], not summed from the bins. *)
Definition computeGenerationalBreakdown (data : gmap string value)
  : option GenerationalBreakdown :=
  let total := ToNumber (field data "B01001_001E") in
  if negb (truthy total) then None
  else
    let pct v := toFixed1 (mul (div v total) (of_Z 100)) in
    let genZ := sumBins data
      [ "B01001_003E"; "B01001_004E"; "B01001_005E"; "B01001_006E";
        "B01001_007E"; "B01001_008E"; "B01001_009E"; "B01001_010E";
        "B01001_011E"; "B01001_012E"; "B01001_013E"; "B01001_014E";
        "B01001_015E"; "B01001_016E"; "B01001_017E"; "B01001_018E";
        "B01001_019E"; "B01001_020E"; "B01001_021E"; "B01001_022E";
        "B01001_023E"; "B01001_024E"; "B01001_025E" ] in
    let millennial := sumBins data
      [ "B01001_026E"; "B01001_027E"; "B01001_028E"; "B01001_029E";
        "B01001_030E"; "B01001_031E"; "B01001_044E"; "B01001_045E";
        "B01001_046E"; "B01001_047E"; "B01001_048E"; "B01001_049E" ] in
    let genX := sumBins data
      [ "B01001_032E"; "B01001_033E"; "B01001_034E"; "B01001_035E";
        "B01001_050E"; "B01001_051E"; "B01001_052E"; "B01001_053E" ] in
    let boomer := sumBins data
      [ "B01001_036E"; "B01001_037E"; "B01001_038E"; "B01001_039E";
        "B01001_054E"; "B01001_055E"; "B01001_056E"; "B01001_057E" ] in
    let silent := sumBins data
      [ "B01001_040E"; "B01001_041E"; "B01001_042E"; "B01001_043E";
        "B01001_058E"; "B01001_059E"; "B01001_060E"; "B01001_061E" ] in
    Some {| genZ := pct genZ; millennial := pct millennial;
            genX := pct genX; boomer := pct boomer;
            silent := pct silent |}.

End breakdowns.
End Breakdowns.

(** ** The application script: derived statistics *)

Module Main.
Import Js.

(** An object literal with string keys, in insertion order, which is
    the order of [Object.values]. *)
Definition object := list (string * value).

(** [o[k]]. *)
Fixpoint get (o : object) (k : string) : value :=
  match o with
  | [] => Undefined
  | (k', v) :: o' => if String.eqb k' k then v else get o' k
  end.

Record Cohorts := {
  GenAlpha : number;
  GenZ : number;
  Millennials : number;
  GenX : number;
  BabyBoomers : number
}.

(** What [calculateGenerationalBreakdown] returns besides [null]: the
    flat object of the zero-total branch, which has the five cohort keys
    and nothing else, or the object with [counts], [percentages] and
    [total]. *)
Inductive Generations :=
| Flat (cohorts : Cohorts)
| Nested (counts percentages : Cohorts) (total : number).

(** [breakdown.percentages], which the callers of
    [calculateGenerationalBreakdown] read; the flat object has no such
    property. *)
Definition percentages (g : Generations) : option Cohorts :=
  match g with
  | Flat _ => None
  | Nested _ p _ => Some p
  end.

(** The requested age variables of [fetchCensusData]. *)
Definition ageVars : list string :=
  [ "B01001_001E";
    "B01001_003E"; "B01001_004E"; "B01001_005E"; "B01001_006E"; "B01001_007E";
    "B01001_008E"; "B01001_009E"; "B01001_010E"; "B01001_011E";
    "B01001_012E"; "B01001_013E"; "B01001_014E"; "B01001_015E";
    "B01001_016E"; "B01001_017E"; "B01001_018E"; "B01001_019E";
    "B01001_020E"; "B01001_021E"; "B01001_022E"; "B01001_023E"; "B01001_024E";
    "B01001_025E";
    "B01001_027E"; "B01001_028E"; "B01001_029E"; "B01001_030E"; "B01001_031E";
    "B01001_032E"; "B01001_033E"; "B01001_034E"; "B01001_035E";
    "B01001_036E"; "B01001_037E"; "B01001_038E"; "B01001_039E";
    "B01001_040E"; "B01001_041E"; "B01001_042E"; "B01001_043E";
    "B01001_044E"; "B01001_045E"; "B01001_046E"; "B01001_047E"; "B01001_048E";
    "B01001_049E" ].

(** A record of the local dataset, as far as the income figures read
    it: [income] is absent or an object whose [medianHousehold] may be
    absent. *)
Record Income := { medianHousehold : option number }.
Record CountyData := { income : option Income }.

Section statistics.
Context `{!Runtime}.

(** [Object.values(age).reduce((a, b) => Number(a) + Number(b), 0)]. *)
Definition ageTotal (age : object) : number :=
  foldl (λ a b, add a (ToNumber b)) zero age.*2.

(** [calculateGenerationalBreakdown(age)].  The argument is [None]
    when the call passes nothing, [null] or a value that is not an
    object. *)
Definition calculateGenerationalBreakdown (age : option object)
  : option Generations :=
  match age with
  | None => None
  | Some age =>
      let sum keys :=
        foldl (λ t k, add t (or_else (ToNumber (get age k)) zero)) zero keys in
      let total := ageTotal age in
      if strict_eq total zero then
        Some (Flat {| GenAlpha := zero; GenZ := zero; Millennials := zero;
                      GenX := zero; BabyBoomers := zero |})
      else
        let genAlpha := sum ["Under 5 years"; "5 to 9 years"; "10 to 14 years"] in
        let genZ := sum ["15 to 17 years"; "18 and 19 years"; "20 years";
                         "21 years"; "22 to 24 years"] in
        let millennials := sum ["25 to 29 years"; "30 to 34 years";
                                "35 to 39 years"] in
        let genX := sum ["40 to 44 years"; "45 to 49 years"; "50 to 54 years"] in
        let boomers := sum ["55 to 59 years"; "60 and 61 years"; "62 to 64 years";
                            "65 and 66 years"; "67 to 69 years"; "70 to 74 years";
                            "75 to 79 years"; "80 to 84 years";
                            "85 years and over"] in
        let percent c := of_fixed (toFixed1 (mul (div c total) (of_Z 100))) in
        Some (Nested
                {| GenAlpha := genAlpha; GenZ := genZ; Millennials := millennials;
                   GenX := genX; BabyBoomers := boomers |}
                {| GenAlpha := percent genAlpha; GenZ := percent genZ;
                   Millennials := percent millennials; GenX := percent genX;
                   BabyBoomers := percent boomers |}
                total)
  end.

(** [+ageData[i] || 0]. *)
Definition cell (ageData : list value) (i : nat) : number :=
  or_else (ToNumber (index ageData i)) zero.

(** [parseAgeData] of [fetchCensusData]; [ageData] is [None] when the
    response has no second row. *)
Definition parseAgeData (ageData : option (list value)) : option object :=
  match ageData with
  | None => None
  | Some ageData =>
      if (length ageData <? 48)%nat then None
      else
        let both m f := Num (add (cell ageData m) (cell ageData f)) in
        Some [ ("Under 5 years", both 1 24); ("5 to 9 years", both 2 25);
               ("10 to 14 years", both 3 26); ("15 to 17 years", both 4 27);
               ("18 and 19 years", both 5 28); ("20 years", both 6 29);
               ("21 years", both 7 30); ("22 to 24 years", both 8 31);
               ("25 to 29 years", both 9 32); ("30 to 34 years", both 10 33);
               ("35 to 39 years", both 11 34); ("40 to 44 years", both 12 35);
               ("45 to 49 years", both 13 36); ("50 to 54 years", both 14 37);
               ("55 to 59 years", both 15 38); ("60 and 61 years", both 16 39);
               ("62 to 64 years", both 17 40); ("65 and 66 years", both 18 41);
               ("67 to 69 years", both 19 42); ("70 to 74 years", both 20 43);
               ("75 to 79 years", both 21 44); ("80 to 84 years", both 22 45);
               ("85 years and over", both 23 46) ]%nat
  end.

End statistics.

(** The income percentile of [buildCountyStatsHTML]. *)

(** [d.income?.medianHousehold]. *)
Definition medianHouseholdOf (d : CountyData) : option number :=
  income d ≫= medianHousehold.

(** [const medianIncome = data.income?.medianHousehold || null]. *)
Definition medianIncomeOf (data : CountyData) : option number :=
  match medianHouseholdOf data with
  | Some x => if truthy x then Some x else None
  | None => None
  end.

(** [allCountyIncomes]: the positive median incomes of the dataset,
    sorted with the comparator [(a, b) => a - b]. *)
Definition allCountyIncomes (demographicsData : list CountyData) : list number :=
  Array_sort sub
    (omap (λ d, match medianHouseholdOf d with
                | Some x => if truthy x && gt x zero then Some x else None
                | None => None
                end)
          demographicsData).

(** [countyPercentile]. *)
Definition countyPercentile (medianIncome : option number)
    (allCountyIncomes : list number) : option number :=
  match medianIncome with
  | Some v =>
      if truthy v && (0 <? length allCountyIncomes)%nat then
        let below := length (List.filter (λ inc, lt inc v) allCountyIncomes) in
        Some (Math_round (mul (div (of_nat below)
                                   (of_nat (length allCountyIncomes)))
                              (of_Z 100)))
      else None
  | None => None
  end.

(** The percentile in the words of the specification, on the income
    value of the county: the share of the comparison incomes strictly
    below it, rounded, and [null] only for a missing value or an empty
    comparison list. *)
Definition claimedPercentile (v : option number) (incomes : list number)
  : option number :=
  match v, incomes with
  | Some v, _ :: _ =>
      let below := length (List.filter (λ inc, lt inc v) incomes) in
      Some (Math_round (mul (div (of_nat below) (of_nat (length incomes)))
                            (of_Z 100)))
  | _, _ => None
  end.

End Main.

(** ** The application script: drill-down navigation *)

Module Navigation.

(** A feature of the input geography; [name] is [properties.name]. *)
Record Feature := { id : string; name : string }.

(** The navigation state: the selected state feature, and the data
    bound to the [path.county] elements of the county layer, in document
    order.  Removals and insertions are animated in the source; the
    model holds the layer as it is once the transitions have ended. *)
Record Nav := {
  currentState : option Feature;
  gCounties : list Feature
}.

(** *** The keyed data join of the selection library

    [selection.data(data, key)] binds each datum to the first unbound
    element with the same key.  A datum that finds one updates it, the
    other data enter, and the elements left unbound form the exit
    selection, which stays in the document unless it is removed. *)

Fixpoint first_with (k : string) (layer : list Feature) (i : nat) : option nat :=
  match layer with
  | [] => None
  | n :: layer' => if String.eqb (id n) k then Some i else first_with k layer' (S i)
  end.

(** Each datum with the slot of the element it updates, if any;
    [bound] lists the slots already taken. *)
Fixpoint bindKey (layer : list Feature) (bound : list nat) (data : list Feature)
  : list (Feature * option nat) :=
  match data with
  | [] => []
  | d :: data' =>
      match first_with (id d) layer 0 with
      | Some j =>
          if bool_decide (j ∈ bound) then (d, None) :: bindKey layer bound data'
          else (d, Some j) :: bindKey layer (j :: bound) data'
      | None => (d, None) :: bindKey layer bound data'
      end
  end.

(** The slot of the first updated element among the data that follow. *)
Fixpoint next_update (joined : list (Feature * option nat)) : option nat :=
  match joined with
  | [] => None
  | (_, Some j) :: _ => Some j
  | (_, None) :: joined' => next_update joined'
  end.

(** The entering data, each with the slot of the next updated element
    after it in data order. *)
Fixpoint entering (joined : list (Feature * option nat))
  : list (Feature * option nat) :=
  match joined with
  | [] => []
  | (d, Some _) :: joined' => entering joined'
  | (d, None) :: joined' => (d, next_update joined') :: entering joined'
  end.

(** The datum that updates slot [j], if any. *)
Fixpoint datum_for (j : nat) (joined : list (Feature * option nat)) : option Feature :=
  match joined with
  | [] => None
  | (d, s) :: joined' =>
      if bool_decide (s = Some j) then Some d else datum_for j joined'
  end.

(** [selection.enter().append(...)]: a new element per entering datum,
    inserted before its next updated element, or appended when there is
    none.  Updated elements take the new datum and keep their place;
    the other elements are left as they are. *)
Definition enter_append (layer : list Feature) (data : list Feature) : list Feature :=
  let joined := bindKey layer [] data in
  let new := entering joined in
  mjoin (imap (λ j n,
                 (List.filter (λ e, bool_decide (e.2 = Some j)) new).*1 ++
                 [default n (datum_for j joined)])
              layer)
    ++ (List.filter (λ e, bool_decide (e.2 = None)) new).*1.

(** *** The navigation functions *)

Section navigation.
(** The global [counties]: all county features of the input geography. *)
Variable counties : list Feature.

(** [revealCounties(state)]. *)
Definition revealCounties (state : Feature) (layer : list Feature) : list Feature :=
  let stateId := id state in
  let stateCounties :=
    List.filter (λ c, String.eqb (String.substring 0 2 (id c)) stateId) counties in
  enter_append layer stateCounties.

(** [zoomOut()]: every element of the county layer is removed. *)
Definition zoomOut (nav : Nav) : Nav :=
  {| currentState := None; gCounties := [] |}.

(** [zoomToState(state)]; [revealCounties] runs when the zoom
    transition ends. *)
Definition zoomToState (state : Feature) (nav : Nav) : Nav :=
  match currentState nav with
  | Some current =>
      if String.eqb (id current) (id state) then zoomOut nav
      else {| currentState := Some state;
              gCounties := revealCounties state (gCounties nav) |}
  | None =>
      {| currentState := Some state;
         gCounties := revealCounties state (gCounties nav) |}
  end.

(** The identifiers of the units on display. *)
Definition visible (nav : Nav) : list string := id <$> gCounties nav.

(** The child counties of a state, in the order of the geography. *)
Definition children (state : Feature) : list string :=
  id <$> List.filter (λ c, String.eqb (String.substring 0 2 (id c)) (id state)) counties.

End navigation.
End Navigation.

(** ** The application script: the history panel *)

Module History.
Import Js.

(** The object literal handed to [recordCountyHistory]; a statistic is
    [None] when the literal holds [null]. *)
Record HistoryEntry := {
  fips : string;
  name : string;
  population : option number;
  medianAge : option number;
  medianIncome : option number
}.

(** The two globals of the panel. *)
Record HistoryState := {
  countyHistory : list HistoryEntry;
  pinnedBaselineFips : option string
}.

Definition initial : HistoryState :=
  {| countyHistory := []; pinnedBaselineFips := None |}.

(** [recordCountyHistory(countyData)]: filter, unshift, slice. *)
Definition recordCountyHistory (countyData : HistoryEntry) (st : HistoryState)
  : HistoryState :=
  {| countyHistory :=
       take 10 (countyData ::
                List.filter (λ c, negb (String.eqb (fips c) (fips countyData)))
                            (countyHistory st));
     pinnedBaselineFips := pinnedBaselineFips st |}.

(** [entry.fips === pinnedBaselineFips]. *)
Definition isPinned (st : HistoryState) (entry : HistoryEntry) : bool :=
  match pinnedBaselineFips st with
  | Some p => String.eqb (fips entry) p
  | None => false
  end.

(** The comparator of [renderHistoryPanel]. *)
Definition pinnedFirst (st : HistoryState) (a b : HistoryEntry) : number :=
  let aIsPinned := isPinned st a in
  let bIsPinned := isPinned st b in
  if aIsPinned && negb bIsPinned then of_Z (-1)
  else if negb aIsPinned && bIsPinned then of_Z 1
  else of_Z 0.

(** [sortedHistory], the order in which the panel lists the entries. *)
Definition sortedHistory (st : HistoryState) : list HistoryEntry :=
  Array_sort (pinnedFirst st) (countyHistory st).

(** The click handler of the pin button of [entry]. *)
Definition clickPin (entry : HistoryEntry) (st : HistoryState) : HistoryState :=
  {| countyHistory := countyHistory st;
     pinnedBaselineFips := if isPinned st entry then None else Some (fips entry) |}.

Inductive Trend := up | down | same.

(** [function trend(a, b)]. *)
Definition trend (a b : option number) : option Trend :=
  match a, b with
  | Some a, Some b =>
      Some (if gt a b then up else if lt a b then down else same)
  | _, _ => None
  end.

Record Trends := {
  populationTrend : option Trend;
  medianAgeTrend : option Trend;
  medianIncomeTrend : option Trend
}.

(** The [baseline] of [compareToBaseline] with the slot it was read
    from: the first entry carrying the pinned identifier when the pin
    is truthy, else [countyHistory[0]].  A pin that is [null] or the
    empty string is falsy. *)
Definition baseline (st : HistoryState) : option (nat * HistoryEntry) :=
  match pinnedBaselineFips st with
  | Some p =>
      if negb (String.eqb p "") then
        find_slot (λ c, String.eqb (fips c) p) (countyHistory st) 0
      else (λ c, (0%nat, c)) <$> head (countyHistory st)
  | None => (λ c, (0%nat, c)) <$> head (countyHistory st)
  end.

(** [countyHistory[currentIndex]]; a negative index reads [undefined]. *)
Definition at_index (st : HistoryState) (currentIndex : Z) : option HistoryEntry :=
  if currentIndex <? 0 then None else countyHistory st !! Z.to_nat currentIndex.

(** [compareToBaseline(currentIndex)]. *)
Definition compareToBaseline (currentIndex : Z) (st : HistoryState) : option Trends :=
  if (length (countyHistory st) =? 0)%nat then None
  else
    match baseline st, at_index st currentIndex with
    | Some (slot, baseline), Some curr =>
        if (slot =? Z.to_nat currentIndex)%nat then None
        else
          Some {| populationTrend := trend (population curr) (population baseline);
                  medianAgeTrend := trend (medianAge curr) (medianAge baseline);
                  medianIncomeTrend :=
                    trend (medianIncome curr) (medianIncome baseline) |}
    | _, _ => None
    end.

(** [countyHistory.findIndex(c => c.fips === entry.fips)]. *)
Definition originalIndex (st : HistoryState) (entry : HistoryEntry) : Z :=
  match find_slot (λ c, String.eqb (fips c) (fips entry)) (countyHistory st) 0 with
  | Some (i, _) => Z.of_nat i
  | None => -1
  end.

(** What [renderHistoryPanel] lists: every entry of [sortedHistory]
    with its trends and its pin mark. *)
Definition renderHistoryPanel (st : HistoryState)
  : list (HistoryEntry * option Trends * bool) :=
  (λ entry, (entry, compareToBaseline (originalIndex st entry) st, isPinned st entry))
    <$> sortedHistory st.

(** The user actions on the panel's state. *)
Inductive Action :=
| Visit (countyData : HistoryEntry)
| Pin (entry : HistoryEntry).

Definition step (st : HistoryState) (a : Action) : HistoryState :=
  match a with
  | Visit c => recordCountyHistory c st
  | Pin e => clickPin e st
  end.

Definition run (actions : list Action) : HistoryState :=
  foldl step initial actions.

(** The entries visited by a sequence of actions, the most recent one
    first. *)
Definition recent (actions : list Action) : list HistoryEntry :=
  reverse (omap (λ a, match a with Visit c => Some c | Pin _ => None end) actions).

(** The entries that carry another identifier than [f]. *)
Definition others (f : string) (h : list HistoryEntry) : list HistoryEntry :=
  List.filter (λ c, negb (String.eqb (fips c) f)) h.

(** The visits in the words of the specification: most recent first,
    one entry per identifier, the latest one. *)
Fixpoint latest_first (recent : list HistoryEntry) : list HistoryEntry :=
  match recent with
  | [] => []
  | c :: older =>
      c :: List.filter (λ d, negb (String.eqb (fips d) (fips c))) (latest_first older)
  end.

End History.

(** ** Sample data used by the worked examples *)

Module Samples.
Import Js History.
#[local] Existing Instance digits_runtime.

Definition county (f n : string) (pop : Z) : HistoryEntry :=
  {| fips := f; name := n; population := Some (of_Z pop);
     medianAge := None; medianIncome := Some (of_Z 50000) |}.

Definition A : HistoryEntry := county "06037" "Los Angeles County" 9936690.
Definition B : HistoryEntry := county "06073" "San Diego County" 3289701.
Definition C : HistoryEntry := county "06059" "Orange County" 3175227.
Definition D : HistoryEntry := county "06065" "Riverside County" 2429487.

(** A later visit of the county of [A], with another population. *)
Definition A' : HistoryEntry := county "06037" "Los Angeles County" 9848406.

(** Ten further counties. *)
Definition ten : list HistoryEntry :=
  (λ f, county f "County" 1000)
    <$> ["01001"; "01003"; "01005"; "01007"; "01009";
         "01011"; "01013"; "01015"; "01017"; "01019"].

(** Visit [A], pin it, then visit ten other counties. *)
Definition evicting_run : list Action :=
  Visit A :: Pin A :: (Visit <$> ten).

(** A small geography: three counties of state 01 around one county
    of state 02. *)
Definition Alabama : Navigation.Feature :=
  {| Navigation.id := "01"; Navigation.name := "Alabama" |}.
Definition Alaska : Navigation.Feature :=
  {| Navigation.id := "02"; Navigation.name := "Alaska" |}.
Definition geography : list Navigation.Feature :=
  [ {| Navigation.id := "01001"; Navigation.name := "Autauga" |};
    {| Navigation.id := "01003"; Navigation.name := "Baldwin" |};
    {| Navigation.id := "02013"; Navigation.name := "Aleutians East" |};
    {| Navigation.id := "01005"; Navigation.name := "Barbour" |} ].

(** The overview: no state selected, no county on display. *)
Definition overview : Navigation.Nav :=
  {| Navigation.currentState := None; Navigation.gCounties := [] |}.

(** A detail row of the income request: name, 1000 households, the
    sixteen bracket counts, state and county codes. *)
Definition detRow : list value :=
  Str "Autauga County, Alabama" :: Str "1000" ::
  (Str <$> ["50"; "50"; "50"; "50";
            "60"; "60"; "60"; "60"; "60";
            "100"; "100";
            "100";
            "50"; "50"; "50"; "50"])
  ++ [Str "01"; Str "001"].

(** Ethnicity counts of 1000 residents: 500 white, 120 black, 100
    American Indian, 80 Asian, 200 Hispanic, nobody in the five
    categories of the combined bucket. *)
Definition ethnicity : gmap string value :=
  list_to_map
    [ ("B03002_001E", Str "1000"); ("B03002_002E", Str "800");
      ("B03002_003E", Str "500"); ("B03002_004E", Str "120");
      ("B03002_005E", Str "100"); ("B03002_006E", Str "80");
      ("B03002_007E", Str "0"); ("B03002_008E", Str "0");
      ("B03002_009E", Str "0"); ("B03002_010E", Str "0");
      ("B03002_011E", Str "0"); ("B03002_012E", Str "200") ].

(** The same counts with the 100 residents moved to the category
    [B03002_008E] of the combined bucket. *)
Definition ethnicity' : gmap string value :=
  <["B03002_005E" := Str "0"]> (<["B03002_008E" := Str "100"]> ethnicity).

(** A county without residents: the record of the age table, and the
    age-bucket mapping. *)
Definition empty_county : gmap string value :=
  list_to_map ((λ k, (k, Str "0")) <$> Main.ageVars).

Definition empty_ages : Main.object :=
  [ ("Under 5 years", Num zero); ("5 to 9 years", Num zero);
    ("10 to 14 years", Num zero); ("85 years and over", Num zero) ].

(** An age row with exactly one cell per requested variable, and a
    full response row, which ends with the state and county codes. *)
Definition age_cells : list value :=
  Str "4600" :: replicate 46 (Str "100").

Definition age_response : list value :=
  age_cells ++ [Str "01"; Str "001"].

(** A county record whose median household income is zero. *)
Definition no_income : Main.CountyData :=
  {| Main.income := Some {| Main.medianHousehold := Some zero |} |}.

End Samples.

(** ** More of the runtime *)

Module Numbers.
Import Js.

(** A Number that is not [NaN] and carries the sign [s]; with [s] false
    it is [0], a positive number or [Infinity]. *)
Definition has_sign (s : bool) (x : number) : Prop :=
  match x with
  | S754_nan => False
  | S754_zero s' | S754_infinity s' | S754_finite s' _ _ => s' = s
  end.

(** [Math.floor]. *)
Definition Math_floor (x : number) : number :=
  match x with
  | S754_finite s m e =>
      if 0 <=? e then x
      else
        let n := cond_Zopp s (Zpos m) `div` 2 ^ (- e) in
        if n =? 0 then S754_zero s else of_Z n
  | _ => x
  end.

(** [Math.min] and [Math.max] of two Numbers, and of a spread array:
    [NaN] wins, and [-0] is smaller than [0]. *)
Definition min2 (a b : number) : number :=
  match a, b with
  | S754_nan, _ | _, S754_nan => NaN
  | S754_zero sa, S754_zero sb => S754_zero (sa || sb)
  | _, _ => if lt b a then b else a
  end.

Definition max2 (a b : number) : number :=
  match a, b with
  | S754_nan, _ | _, S754_nan => NaN
  | S754_zero sa, S754_zero sb => S754_zero (sa && sb)
  | _, _ => if lt a b then b else a
  end.

Definition Math_min (xs : list number) : number :=
  foldl min2 (S754_infinity false) xs.

Definition Math_max (xs : list number) : number :=
  foldl max2 (S754_infinity true) xs.

(** The element slot that a Number names when it indexes an array: the
    integers from 0 on, [-0] included; every other Number names a
    property that an array of records does not have. *)
Definition array_slot (x : number) : option nat :=
  match x with
  | S754_zero _ => Some 0%nat
  | S754_finite false m e =>
      if 0 <=? e then Some (Z.to_nat (Zpos m * 2 ^ e))
      else if Zpos m `mod` 2 ^ (- e) =? 0 then Some (Z.to_nat (Zpos m `div` 2 ^ (- e)))
      else None
  | _ => None
  end.

(** [s.padStart(n, '0')]. *)
Fixpoint zeros (k : nat) : string :=
  match k with
  | O => ""
  | S k => "0" +:+ zeros k
  end.

Definition padStart (n : nat) (s : string) : string :=
  zeros (n - String.length s) +:+ s.

End Numbers.

(** ** [src/census.js]: the cache of [fetchCountyStats] *)

Module Stats.
Import Js Numbers.

(** The object that [fetchCountyStats] resolves to. *)
Record CountyStats := {
  medianIncome : option number;
  unemployment : option number;
  insuredPct : option number;
  incomeDist : list (string * number);
  name : value;
  source : string;
  fips : string
}.

(** What [d3json] does with one request: it throws on a response that
    is not ok, and otherwise resolves to the parsed body, [null] or an
    array of rows. *)
Inductive Response :=
| HttpError
| Json (body : option (list (list value))).

(** A settled promise. *)
Inductive Settled (A : Type) :=
| Resolved (result : A)
| Rejected.
Arguments Resolved {A} result.
Arguments Rejected {A}.

(** The cache key; the two codes are strings, as every call site passes
    them. *)
Definition cacheKey (stateFIPS countyFIPS : string) : string :=
  padStart 2 stateFIPS +:+ padStart 3 countyFIPS.

(** A call of [fetchCountyStats] runs in two parts.  The first part
    runs when the function is called: it computes the key and looks it
    up; on a hit the call resolves to the cached object, on a miss it
    issues its two requests and waits.  Other calls may run while it
    waits. *)
Inductive Started :=
| Cached (stats : CountyStats)
| Awaiting (key : string).

Definition fetchCountyStats (cache : gmap string CountyStats)
    (stateFIPS countyFIPS : string) : Started :=
  let key := cacheKey stateFIPS countyFIPS in
  match cache !! key with
  | Some stats => Cached stats
  | None => Awaiting key
  end.

(** The first element of a list that equals [k] is taken out. *)
Fixpoint without (k : string) (l : list string) : list string :=
  match l with
  | [] => []
  | k' :: l' => if String.eqb k' k then l' else k' :: without k l'
  end.

Section stats.
Context `{!Runtime}.

(** The second part of a call that missed, run once both requests have
    settled, on the cache as it is then: the call rejects, or builds its
    object and stores it under its key, whether or not the key has been
    filled in the meantime. *)
Definition resume (cache : gmap string CountyStats) (key : string)
    (subjResponse detResponse : Response)
  : Settled CountyStats * gmap string CountyStats :=
  match subjResponse, detResponse with
  | Json (Some subj), Json (Some det) =>
      if (length subj <? 2)%nat || (length det <? 2)%nat then (Rejected, cache)
      else
        let subjRow := default [] (subj !! 1%nat) in
        let detRow := default [] (det !! 1%nat) in
        let result :=
          {| medianIncome := Census.num (index subjRow 1);
             unemployment := Census.num (index subjRow 2);
             insuredPct := Census.num (index subjRow 3);
             incomeDist := Census.incomeDist detRow;
             name := index subjRow 0;
             source := "ACS 5-year 2022";
             fips := key |} in
        (Resolved result, <[key := result]> cache)
  | _, _ => (Rejected, cache)
  end.

(** The module-level [cache] together with the keys of the calls that
    wait for their responses, one entry per call. *)
Record Page := {
  cache : gmap string CountyStats;
  inFlight : list string
}.

(** What happens on the page: a call is made, or the two responses of
    a waiting call arrive. *)
Inductive Event :=
| Call (stateFIPS countyFIPS : string)
| Arrive (key : string) (subjResponse detResponse : Response).

(** Responses arrive only for a call that waits; an arrival for a key
    that no call waits for does not occur and changes nothing. *)
Definition step (page : Page) (e : Event) : Page :=
  match e with
  | Call stateFIPS countyFIPS =>
      match fetchCountyStats (cache page) stateFIPS countyFIPS with
      | Cached _ => page
      | Awaiting key => {| cache := cache page; inFlight := key :: inFlight page |}
      end
  | Arrive key subjResponse detResponse =>
      if bool_decide (key ∈ inFlight page) then
        {| cache := (resume (cache page) key subjResponse detResponse).2;
           inFlight := without key (inFlight page) |}
      else page
  end.

(** The page as it loads. *)
Definition fresh : Page := {| cache := ∅; inFlight := [] |}.

Definition run (page : Page) (events : list Event) : Page := foldl step page events.

End stats.
End Stats.

(** ** The application script: navigation gestures and zoom transitions *)

Module Browsing.
Import Navigation.

(** What happens to the map: a click on a state path, a search result
    or the state crumb calls [zoomToState]; the country crumb and the
    Escape key call [zoomOut]; and the zoom transition that
    [zoomToState] started on the map comes to its end, unless another
    gesture has replaced it by then. *)
Inductive Event :=
| Select (state : Feature)
| Back
| ZoomEnd.

(** [const stateCounties] of [revealCounties]. *)
Definition stateCounties (counties : list Feature) (state : Feature) : list Feature :=
  List.filter (λ c, String.eqb (String.substring 0 2 (id c)) (id state)) counties.

(** The navigation state together with the listener of the running
    zoom transition: [awaited] is the state whose counties
    [revealCounties] will add when the transition ends.  A transition
    that a gesture starts on the map interrupts the running one, whose
    listener is then never called. *)
Record Map := {
  nav : Nav;
  awaited : option Feature
}.

Section browsing.
Variable counties : list Feature.

(** [zoomOut()]: the selection is cleared, the county paths are removed
    and the zoom transition that starts has no listener.  The paths fade
    for 250 ms before they leave the document; a zoom transition lasts
    750 ms, so that they have left before a later one ends. *)
Definition zoomOut (map : Map) : Map :=
  {| nav := Navigation.zoomOut (nav map); awaited := None |}.

(** [zoomToState(state)] up to the start of its zoom transition. *)
Definition zoomToState (state : Feature) (map : Map) : Map :=
  let select :=
    {| nav := {| currentState := Some state; gCounties := gCounties (nav map) |};
       awaited := Some state |} in
  match currentState (nav map) with
  | Some current => if String.eqb (id current) (id state) then zoomOut map else select
  | None => select
  end.

(** The listener [() => revealCounties(state)] of the zoom transition. *)
Definition zoomEnd (map : Map) : Map :=
  match awaited map with
  | Some state =>
      {| nav := {| currentState := currentState (nav map);
                   gCounties := revealCounties counties state (gCounties (nav map)) |};
         awaited := None |}
  | None => map
  end.

Definition step (map : Map) (e : Event) : Map :=
  match e with
  | Select state => zoomToState state map
  | Back => zoomOut map
  | ZoomEnd => zoomEnd map
  end.

(** The page as it loads: the overview, with an empty county layer. *)
Definition start : Map :=
  {| nav := {| currentState := None; gCounties := [] |}; awaited := None |}.

Definition browse (events : list Event) : Map := foldl step start events.

End browsing.





End Browsing.

(** ** [src/utils/demographicBreakdowns.js]: the household indicator *)

Module Indicators.
Import Js Breakdowns.

Record LGBTQIndicator := {
  percentSameSex : fixed;
  sameSexHouseholds : number;
  householdsTotal : number
}.

Section indicators.
Context `{!Runtime}.

(** [calculateLGBTQIndicator(data)], table B11009. *)
Definition calculateLGBTQIndicator (data : gmap string value) : option LGBTQIndicator :=
  let sameSexHouseholds :=
    add (ToNumber (field data "B11009_003E")) (ToNumber (field data "B11009_004E")) in
  let householdsTotal := ToNumber (field data "B11009_001E") in
  if negb (truthy householdsTotal) then None
  else
    Some {| percentSameSex :=
              toFixed1 (mul (div sameSexHouseholds householdsTotal) (of_Z 100));
            sameSexHouseholds := sameSexHouseholds;
            householdsTotal := householdsTotal |}.

End indicators.
End Indicators.

(** ** The application script: the modal of the fetched statistics *)

Module Modal.
Import Js Breakdowns.

(** [generations] holds the percentages of
    [calculateGenerationalBreakdown] or the object of
    [computeGenerationalBreakdown]. *)
Record ModalBreakdowns := {
  ethnicity : option EthnicityBreakdown;
  generations : option (Main.Cohorts + GenerationalBreakdown)
}.

Section modal.
Context `{!Runtime}.

Definition cell_of (x : option number) : value :=
  match x with
  | Some n => Num n
  | None => Null
  end.

(** The object that [fetchCountyStats] resolves to, as a property read
    sees it.  Its seventh property, [incomeDist], holds an array and not
    a cell value; it is left out, since the reads below name none of the
    seven properties. *)
Definition scalars (stats : Stats.CountyStats) : gmap string value :=
  list_to_map
    [ ("medianIncome", cell_of (Stats.medianIncome stats));
      ("unemployment", cell_of (Stats.unemployment stats));
      ("insuredPct", cell_of (Stats.insuredPct stats));
      ("name", Stats.name stats);
      ("source", Str (Stats.source stats));
      ("fips", Str (Stats.fips stats)) ].

(** [openCountyModalWithStats(county, state, stats)], as far as the two
    breakdowns go.  Both callers pass the object of [fetchCountyStats].
    A cell value is not an object, so that a truthy [stats.age] of that
    kind reaches [calculateGenerationalBreakdown] as an invalid
    argument. *)
Definition openCountyModalWithStats (stats : Stats.CountyStats) : ModalBreakdowns :=
  {| ethnicity := computeEthnicityBreakdown (scalars stats);
     generations :=
       if ToBoolean (field (scalars stats) "age") then
         inl <$> (Main.calculateGenerationalBreakdown None ≫= Main.percentages)
       else inr <$> computeGenerationalBreakdown (scalars stats) |}.

End modal.
End Modal.

(** ** The application script: [fetchCensusData] *)

Module Acs.
Import Js.

(** The requested variables of the ethnicity and household groups. *)
Definition ethnicityVars : list string :=
  [ "B03002_001E"; "B03002_002E"; "B03002_003E"; "B03002_004E";
    "B03002_005E"; "B03002_006E"; "B03002_007E"; "B03002_008E";
    "B03002_009E"; "B03002_010E"; "B03002_011E"; "B03002_012E" ].

Definition householdVars : list string :=
  [ "B11001_001E"; "B11001_007E"; "B11001_008E"; "B25010_001E";
    "B25024_001E"; "B25024_005E"; "B25024_006E"; "B25024_007E" ].

Record EthnicityCounts := {
  total : number;
  white : number;
  black : number;
  native : number;
  asian : number;
  pacificIslander : number;
  hispanic : number
}.

Record HouseholdInsights := {
  pctSingle : option number;
  pctNonFamily : option number;
  avgHouseholdSize : option number;
  pctMultiUnitHousing : option number
}.

(** A response row read by variable name: cell [i] belongs to the
    [i]-th requested variable. *)
Definition byVariable (vars : list string) (row : list value) : gmap string value :=
  list_to_map (zip vars row).

Section acs.
Context `{!Runtime}.

(** The [ethnicityBreakdown] property of the object that
    [fetchCensusData] returns; [ethnicity] is the second row of the
    response to the request of [ethnicityVars]. *)
Definition ethnicityBreakdown (ethnicity : list value) : EthnicityCounts :=
  {| total := ToNumber (index ethnicity 0);
     white := ToNumber (index ethnicity 1);
     black := ToNumber (index ethnicity 2);
     native := ToNumber (index ethnicity 4);
     asian := ToNumber (index ethnicity 6);
     pacificIslander := ToNumber (index ethnicity 7);
     hispanic := ToNumber (index ethnicity 11) |}.

(** [+x || null]. *)
Definition or_null (x : number) : option number :=
  if truthy x then Some x else None.

(** The [householdInsights] property; [household] is the second row of
    the response to the request of [householdVars]. *)
Definition householdInsights (household : list value) : HouseholdInsights :=
  let totalHouseholds := or_else (ToNumber (index household 0)) zero in
  let nonFamilyHouseholds := or_else (ToNumber (index household 1)) zero in
  let singleHouseholds := or_else (ToNumber (index household 2)) zero in
  let avgHouseholdSize := or_null (ToNumber (index household 3)) in
  let totalHousingUnits := or_else (ToNumber (index household 4)) zero in
  let midRiseUnits :=
    add (add (or_else (ToNumber (index household 5)) zero)
             (or_else (ToNumber (index household 6)) zero))
        (or_else (ToNumber (index household 7)) zero) in
  {| pctSingle :=
       if truthy totalHouseholds
       then Some (mul (div singleHouseholds totalHouseholds) (of_Z 100)) else None;
     pctNonFamily :=
       if truthy totalHouseholds
       then Some (mul (div nonFamilyHouseholds totalHouseholds) (of_Z 100)) else None;
     avgHouseholdSize := avgHouseholdSize;
     pctMultiUnitHousing :=
       if truthy totalHousingUnits
       then Some (mul (div midRiseUnits totalHousingUnits) (of_Z 100)) else None |}.

End acs.
End Acs.

(** ** The application script: the income histogram of [animateSparkline] *)

Module Histogram.
Import Js Numbers.

Definition numBins : Z := 10.

Record Bin := {
  min : number;
  max : number;
  count : nat
}.

(** [Array(numBins).fill(0).map((_, i) => ...)]. *)
Definition emptyBins (minIncome binWidth : number) : list Bin :=
  imap (λ i _,
          {| min := add minIncome (mul (of_nat i) binWidth);
             max := add minIncome (mul (add (of_nat i) (of_Z 1)) binWidth);
             count := 0 |})
       (replicate (Z.to_nat numBins) zero).

(** [Math.min(Math.floor((income - minIncome) / binWidth), numBins - 1)]. *)
Definition binIndex (minIncome binWidth income : number) : number :=
  min2 (Math_floor (div (sub income minIncome) binWidth))
       (sub (of_Z numBins) (of_Z 1)).

(** [bins[binIndex].count++]: reading [count] of a bin that does not
    exist throws, which is [None] here. *)
Definition bump (bins : list Bin) (binIndex : number) : option (list Bin) :=
  match array_slot binIndex with
  | Some i =>
      match bins !! i with
      | Some b =>
          Some (<[i := {| min := min b; max := max b; count := S (count b) |}]> bins)
      | None => None
      end
  | None => None
  end.

(** The bins of [animateSparkline] once every income has been counted,
    for a non-empty [allIncomes]; [None] when the loop throws. *)
Definition countBins (allIncomes : list number) : option (list Bin) :=
  let minIncome := Math_min allIncomes in
  let maxIncome := Math_max allIncomes in
  let incomeRange := sub maxIncome minIncome in
  let binWidth := div incomeRange (of_Z numBins) in
  foldl (λ bins income,
           bins ≫= λ bins, bump bins (binIndex minIncome binWidth income))
        (Some (emptyBins minIncome binWidth)) allIncomes.

End Histogram.

(** ** The age bands and the cohorts *)

Module Bands.
Import Js Main.

(** The band labels that [calculateGenerationalBreakdown] hands to its
    five calls of [sum], for Gen Alpha, Gen Z, the Millennials, Gen X
    and the Baby Boomers. *)
Definition cohortKeys : list (list string) :=
  [ ["Under 5 years"; "5 to 9 years"; "10 to 14 years"];
    ["15 to 17 years"; "18 and 19 years"; "20 years"; "21 years"; "22 to 24 years"];
    ["25 to 29 years"; "30 to 34 years"; "35 to 39 years"];
    ["40 to 44 years"; "45 to 49 years"; "50 to 54 years"];
    ["55 to 59 years"; "60 and 61 years"; "62 to 64 years"; "65 and 66 years";
     "67 to 69 years"; "70 to 74 years"; "75 to 79 years"; "80 to 84 years";
     "85 years and over"] ].

(** The age object with the value [v] in the bucket labelled [k]. *)
Definition setBucket (k : string) (v : value) (age : object) : object :=
  (λ kv : string * value, if String.eqb kv.1 k then (kv.1, v) else kv) <$> age.

Section bands.
Context `{!Runtime}.

(** [const sum = (...keys) => keys.reduce((t, k) => t + (Number(age[k]) || 0), 0)]. *)
Definition sumKeys (age : object) (keys : list string) : number :=
  foldl (λ t k, add t (or_else (ToNumber (get age k)) zero)) zero keys.

End bands.
End Bands.

(** ** Further sample data *)

Module Cases.
Import Js.
#[local] Existing Instance digits_runtime.

(** The two responses to the requests of [fetchCountyStats] for
    Autauga County, a header row followed by the data row. *)
Definition subjResponse : Stats.Response :=
  Stats.Json (Some [ [Str "NAME"; Str "S1901_C01_012E"; Str "S2301_C04_001E";
                      Str "S2701_C03_001E"; Str "state"; Str "county"];
                     [Str "Autauga County, Alabama"; Str "68315"; Str "3"; Str "92";
                      Str "01"; Str "001"] ]).

Definition detResponse : Stats.Response :=
  Stats.Json (Some [ [Str "NAME"]; Samples.detRow ]).

(** A later answer to the same requests, with another median income. *)
Definition subjResponse' : Stats.Response :=
  Stats.Json (Some [ [Str "NAME"];
                     [Str "Autauga County, Alabama"; Str "70000"; Str "3"; Str "92";
                      Str "01"; Str "001"] ]).

(** The page after a first call with unpadded codes that was awaited on
    its own, and the object which that call stored. *)
Definition fetchedPage : Stats.Page :=
  Stats.run Stats.fresh
    [ Stats.Call "1" "1"; Stats.Arrive "01001" subjResponse detResponse ].

Definition fetched_stats : Stats.CountyStats :=
  default
    {| Stats.medianIncome := None; Stats.unemployment := None;
       Stats.insuredPct := None; Stats.incomeDist := []; Stats.name := Undefined;
       Stats.source := ""; Stats.fips := "" |}
    (Stats.cache fetchedPage !! "01001").

(** What follows on that page: a call for another county whose request
    fails, and a call for the first county under its padded codes. *)
Definition later : list Stats.Event :=
  [ Stats.Call "02" "013"; Stats.Arrive "02013" Stats.HttpError detResponse;
    Stats.Call "01" "001" ].

(** The whole session from the fresh page. *)
Definition calls : list Stats.Event :=
  [ Stats.Call "1" "1"; Stats.Arrive "01001" subjResponse detResponse ] ++ later.

(** Two calls for one county that overlap: the second starts before
    the responses of the first have arrived. *)
Definition overlapping : list Stats.Event :=
  [ Stats.Call "1" "1"; Stats.Call "01" "001";
    Stats.Arrive "01001" subjResponse detResponse;
    Stats.Arrive "01001" subjResponse' detResponse ].

(** The ethnicity row of a response: the twelve cells of
    [Samples.ethnicity] and the two geography codes. *)
Definition ethnicityRow : list value :=
  (Str <$> ["1000"; "800"; "500"; "120"; "100"; "80"; "0"; "0"; "0"; "0"; "0"; "200"])
  ++ [Str "01"; Str "001"].

(** The record of [Samples.ethnicity] without its white count. *)
Definition noWhite : gmap string value := delete "B03002_003E" Samples.ethnicity.

(** A household row: 1000 households, 300 of them non-family and 250
    single, an average size of 2, and 1200 housing units of which 40, 30
    and 20 lie in the three kinds of large buildings. *)
Definition householdRow : list value :=
  (Str <$> ["1000"; "300"; "250"; "2"; "1200"; "40"; "30"; "20"])
  ++ [Str "01"; Str "001"].


(** A household record that lacks the unmarried count. *)
Definition householdRecord : gmap string value :=
  list_to_map [ ("B11009_001E", Str "400"); ("B11009_003E", Str "4") ].

(** An age object one of whose buckets holds a placeholder text. *)
Definition spoiledAges : Main.object :=
  [ ("Under 5 years", Num (of_Z 10)); ("5 to 9 years", Str "n/a");
    ("25 to 29 years", Num (of_Z 30)) ].

(** Two records of the local dataset. *)
Definition richer : Main.CountyData :=
  {| Main.income := Some {| Main.medianHousehold := Some (of_Z 80000) |} |}.
Definition poorer : Main.CountyData :=
  {| Main.income := Some {| Main.medianHousehold := Some (of_Z 40000) |} |}.

(** The incomes of a dataset for the histogram. *)
Definition incomes : list number := of_Z <$> [30000; 42000; 80000; 55000].

(** The bins after the counting loop, and none if it throws. *)
Definition counted : list Histogram.Bin := default [] (Histogram.countBins incomes).

(** The age object parsed from the sample response row. *)
Definition parsedAges : Main.object :=
  default [] (Main.parseAgeData (Some Samples.age_response)).

(** A walk over the sample geography in which every zoom comes to its
    end: Alabama, Alaska, Alabama again. *)
Definition walk : list Browsing.Event :=
  [ Browsing.Select Samples.Alabama; Browsing.ZoomEnd;
    Browsing.Select Samples.Alaska; Browsing.ZoomEnd;
    Browsing.Select Samples.Alabama; Browsing.ZoomEnd ].

(** Two quick clicks: Alaska is selected before the zoom to Alabama
    has ended. *)
Definition quickClicks : list Browsing.Event :=
  [ Browsing.Select Samples.Alabama; Browsing.Select Samples.Alaska; Browsing.ZoomEnd ].

(** Three visits and a pin on the oldest of the three counties. *)
Definition session : list History.Action :=
  [ History.Visit Samples.C; History.Visit Samples.B; History.Visit Samples.A;
    History.Pin Samples.C ].

End Cases.

(** * Properties *)

(** ** The history panel *)

Section history_facts.
Import Js History.

Implicit Types (c d : HistoryEntry) (h : list HistoryEntry) (st : HistoryState).

Lemma others_cons f c h :
  others f (c :: h) = if String.eqb (fips c) f then others f h else c :: others f h.
Proof. unfold others. cbn. by destruct (String.eqb (fips c) f). Qed.

Lemma others_fips f h c : c ∈ others f h → fips c ≠ f.
Proof.
  unfold others. rewrite list_elem_of_In, filter_In.
  intros [_ Hne] Heq. cbn in Hne. by rewrite Heq, String.eqb_refl in Hne.
Qed.

Lemma others_all f h : f ∉ fips <$> h → others f h = h.
Proof.
  induction h as [|c h IH]; [done|]. rewrite fmap_cons, not_elem_of_cons.
  intros [Hne Hnot]. rewrite others_cons.
  destruct (String.eqb_spec (fips c) f) as [Heq|_]; [by subst|].
  f_equal. by apply IH.
Qed.

Lemma others_sublist f h : others f h `sublist_of` h.
Proof.
  induction h as [|c h IH]; [done|]. rewrite others_cons.
  destruct (String.eqb _ _); by constructor.
Qed.

Lemma others_NoDup f h : NoDup (fips <$> h) → NoDup (fips <$> others f h).
Proof.
  intros Hnd. eapply sublist_NoDup; [exact Hnd|].
  apply fmap_sublist, others_sublist.
Qed.

Lemma others_not_elem f h : f ∉ fips <$> others f h.
Proof.
  rewrite list_elem_of_fmap. intros (c & -> & Hc). by apply others_fips in Hc.
Qed.

(** Truncation before the filter drops nothing that the first [n]
    survivors need, as long as no identifier is repeated. *)
Lemma take_others_take f h n :
  NoDup (fips <$> h) →
  take n (others f (take (S n) h)) = take n (others f h).
Proof.
  revert n. induction h as [|c h IH]; intros n Hnd; [done|].
  rewrite fmap_cons in Hnd. apply NoDup_cons in Hnd as [Hc Hnd].
  rewrite firstn_cons, !others_cons.
  destruct (String.eqb_spec (fips c) f) as [<-|Hne].
  - rewrite !others_all; [by rewrite take_take, Nat.min_id|done|].
    intros Hin. apply Hc. eapply elem_of_sublist; [done|].
    apply fmap_sublist, sublist_take.
  - destruct n as [|n]; [done|]. rewrite !firstn_cons. f_equal. by apply IH.
Qed.

Lemma latest_first_cons c h :
  latest_first (c :: h) = c :: others (fips c) (latest_first h).
Proof. done. Qed.

Lemma latest_first_NoDup h : NoDup (fips <$> latest_first h).
Proof.
  induction h as [|c h IH]; [constructor|].
  rewrite latest_first_cons, fmap_cons.
  apply NoDup_cons. split; [apply others_not_elem | by apply others_NoDup].
Qed.

Lemma run_snoc actions a : run (actions ++ [a]) = step (run actions) a.
Proof. unfold run. by rewrite foldl_app. Qed.

Lemma recent_snoc_visit actions c : recent (actions ++ [Visit c]) = c :: recent actions.
Proof. unfold recent. by rewrite omap_app, reverse_app. Qed.

Lemma recent_snoc_pin actions e : recent (actions ++ [Pin e]) = recent actions.
Proof. unfold recent. by rewrite omap_app, reverse_app. Qed.

Lemma record_history c st :
  countyHistory (recordCountyHistory c st)
  = take 10 (c :: others (fips c) (countyHistory st)).
Proof. done. Qed.

(** The stored list is the most-recent-first list of visits, cut to ten. *)
Lemma history_latest_first actions :
  countyHistory (run actions) = take 10 (latest_first (recent actions)).
Proof.
  induction actions as [|a actions IH] using rev_ind; [done|].
  rewrite run_snoc. destruct a as [c|e].
  - cbn [step]. rewrite record_history, recent_snoc_visit, latest_first_cons, IH.
    rewrite !firstn_cons. f_equal.
    apply (take_others_take (fips c) _ 9), latest_first_NoDup.
  - cbn [step clickPin countyHistory]. by rewrite recent_snoc_pin.
Qed.

Lemma others_length f h :
  NoDup (fips <$> h) → f ∈ fips <$> h → S (length (others f h)) = length h.
Proof.
  induction h as [|c h IH]; [by intros _ ?%elem_of_nil|].
  rewrite fmap_cons, NoDup_cons, elem_of_cons, others_cons.
  intros [Hc Hnd] Hin.
  destruct (String.eqb_spec (fips c) f) as [<-|Hne].
  - by rewrite others_all.
  - destruct Hin as [->|Hin]; [done|]. cbn. f_equal. by apply IH.
Qed.

Lemma history_NoDup actions : NoDup (fips <$> countyHistory (run actions)).
Proof.
  rewrite history_latest_first. eapply sublist_NoDup; [apply latest_first_NoDup|].
  apply fmap_sublist, sublist_take.
Qed.

Lemma history_length actions : (length (countyHistory (run actions)) ≤ 10)%nat.
Proof. rewrite history_latest_first, length_take. lia. Qed.

(** C7: after any sequence of visits (and pin clicks) from the empty
    history, the stored list has at most ten entries, no identifier
    twice, and is the most-recent-first list of the visits cut to ten;
    visiting an identifier that is already stored puts the new record at
    the front, removes the old one and keeps the others in place. *)
Theorem history_bounded_distinct_recent_first actions :
  (length (countyHistory (run actions)) ≤ 10)%nat ∧
  NoDup (fips <$> countyHistory (run actions)) ∧
  countyHistory (run actions) = take 10 (latest_first (recent actions)) ∧
  ∀ c, fips c ∈ fips <$> countyHistory (run actions) →
    countyHistory (recordCountyHistory c (run actions))
    = c :: others (fips c) (countyHistory (run actions))
    ∧ (fips c ∉ fips <$> others (fips c) (countyHistory (run actions)))
    ∧ length (countyHistory (recordCountyHistory c (run actions)))
      = length (countyHistory (run actions)).
Proof.
  split_and!; [apply history_length|apply history_NoDup|apply history_latest_first|].
  intros c Hin.
  pose proof (others_length (fips c) _ (history_NoDup actions) Hin) as Hlen.
  pose proof (history_length actions) as Hle.
  assert (countyHistory (recordCountyHistory c (run actions))
          = c :: others (fips c) (countyHistory (run actions))) as ->.
  { rewrite record_history. apply take_ge. cbn. lia. }
  split_and!; [done|apply others_not_elem|cbn; lia].
Qed.

(** *** The rendering order *)

Lemma pinnedFirst_pinned st c d :
  isPinned st c = true → gt (pinnedFirst st c d) zero = false.
Proof. unfold pinnedFirst. intros ->. by destruct (isPinned st d). Qed.

Lemma pinnedFirst_unpinned st c d :
  isPinned st c = false → gt (pinnedFirst st c d) zero = isPinned st d.
Proof. unfold pinnedFirst. intros ->. by destruct (isPinned st d). Qed.

Lemma sort_insert_pinned st c h :
  isPinned st c = true → sort_insert (pinnedFirst st) c h = c :: h.
Proof. intros Hc. destruct h as [|d h]; [done|]. cbn. by rewrite pinnedFirst_pinned. Qed.

Lemma sort_insert_unpinned st c hp hu :
  isPinned st c = false →
  Forall (λ d, isPinned st d = true) hp →
  Forall (λ d, isPinned st d = false) hu →
  sort_insert (pinnedFirst st) c (hp ++ hu) = hp ++ c :: hu.
Proof.
  intros Hc Hp Hu. induction Hp as [|d hp Hd _ IH]; cbn.
  - destruct Hu as [|d hu Hd _]; [done|]. cbn.
    by rewrite pinnedFirst_unpinned, Hd.
  - by rewrite pinnedFirst_unpinned, Hd, IH.
Qed.

Lemma Forall_filter_true {A} (p : A → bool) l : Forall (λ x, p x = true) (List.filter p l).
Proof. apply Forall_forall. intros x [_ ?]%list_elem_of_In%filter_In. done. Qed.

(** The panel lists the pinned entries first and leaves both groups in
    stored order. *)
Lemma sortedHistory_partition st :
  sortedHistory st
  = List.filter (isPinned st) (countyHistory st)
    ++ List.filter (λ c, negb (isPinned st c)) (countyHistory st).
Proof.
  unfold sortedHistory, Array_sort.
  induction (countyHistory st) as [|c h IH]; [done|]. cbn [foldr List.filter].
  rewrite IH. destruct (isPinned st c) eqn:Hc; cbn [negb].
  - by apply sort_insert_pinned.
  - apply sort_insert_unpinned; [done|apply Forall_filter_true|].
    eapply Forall_impl; [apply (Forall_filter_true (λ c, negb (isPinned st c)))|].
    intros d. cbn. by destruct (isPinned st d).
Qed.

(** C7 at work: visiting [A], then [B], then the county of [A] again
    with a new population leaves two entries, the new record first. *)
Lemma history_bounded_distinct_recent_first_witness :
  countyHistory (recordCountyHistory Samples.A' (run [Visit Samples.A; Visit Samples.B]))
  = [Samples.A'; Samples.B].
Proof.
  destruct (history_bounded_distinct_recent_first [Visit Samples.A; Visit Samples.B])
    as (_ & _ & _ & Hagain).
  destruct (Hagain Samples.A') as (-> & _ & _); [|reflexivity].
  vm_compute. apply list_elem_of_further, list_elem_of_here.
Defined.

Lemma filter_filter_false {A} (p q : A → bool) l :
  (∀ x, q x = true → p x = false) → List.filter q (List.filter p l) = [].
Proof.
  intros Hqp. induction l as [|x l IH]; [done|]. cbn.
  destruct (p x) eqn:Hp; [|done]. cbn.
  destruct (q x) eqn:Hq; [|done]. apply Hqp in Hq. congruence.
Qed.

Lemma filter_filter_true {A} (p q : A → bool) l :
  (∀ x, q x = true → p x = true) → List.filter q (List.filter p l) = List.filter q l.
Proof.
  intros Hqp. induction l as [|x l IH]; [done|]. cbn.
  destruct (p x) eqn:Hp; cbn; destruct (q x) eqn:Hq; rewrite ?IH; try done.
  apply Hqp in Hq. congruence.
Qed.

(** Entries that are unpinned under both pins are listed in the same
    order. *)
Lemma unpinned_order_stable st st' :
  countyHistory st' = countyHistory st →
  List.filter (λ c, negb (isPinned st c) && negb (isPinned st' c)) (sortedHistory st')
  = List.filter (λ c, negb (isPinned st c) && negb (isPinned st' c)) (sortedHistory st).
Proof.
  intros Hh. rewrite !sortedHistory_partition, Hh, !List.filter_app.
  rewrite (filter_filter_false (isPinned st')), (filter_filter_false (isPinned st)).
  2,3: intros x; by destruct (isPinned st x), (isPinned st' x).
  rewrite !filter_filter_true; [done|..].
  all: intros x; cbn; by destruct (isPinned st x), (isPinned st' x).
Qed.

(** C8: the panel lists the pinned entries first and keeps the stored
    most-recent-first order inside both groups; a click on a pin leaves
    the relative order of the entries that stay unpinned unchanged; and
    with [A; B; C] stored, pinning [C] and then visiting [D] lists
    [C; D; A; B]. *)
Theorem render_order_stable_partition :
  (∀ st, sortedHistory st
         = List.filter (isPinned st) (countyHistory st)
           ++ List.filter (λ c, negb (isPinned st c)) (countyHistory st)) ∧
  (∀ st e,
     List.filter (λ c, negb (isPinned st c) && negb (isPinned (clickPin e st) c))
                 (sortedHistory (clickPin e st))
     = List.filter (λ c, negb (isPinned st c) && negb (isPinned (clickPin e st) c))
                   (sortedHistory st)) ∧
  (∀ a b c d,
     fips a ≠ fips c → fips b ≠ fips c → fips d ≠ fips a → fips d ≠ fips b →
     fips d ≠ fips c →
     sortedHistory
       (recordCountyHistory d
          (clickPin c {| countyHistory := [a; b; c]; pinnedBaselineFips := None |}))
     = [c; d; a; b]).
Proof.
  split_and!.
  - apply sortedHistory_partition.
  - intros st e. by apply unpinned_order_stable.
  - intros a b c d Hac Hbc Hda Hdb Hdc.
    assert ((fips a =? fips d)%string = false) as Had by (by apply String.eqb_neq).
    assert ((fips b =? fips d)%string = false) as Hbd by (by apply String.eqb_neq).
    assert ((fips c =? fips d)%string = false) as Hcd by (by apply String.eqb_neq).
    apply String.eqb_neq in Hac, Hbc, Hdc.
    rewrite sortedHistory_partition. unfold recordCountyHistory, clickPin, isPinned.
    cbn. rewrite Had, Hbd, Hcd, Hdc. cbn.
    by rewrite Hac, Hbc, String.eqb_refl.
Qed.

(** C8 on the sample counties. *)
Lemma render_order_stable_partition_witness :
  sortedHistory
    (recordCountyHistory Samples.D
       (clickPin Samples.C
          {| countyHistory := [Samples.A; Samples.B; Samples.C];
             pinnedBaselineFips := None |}))
  = [Samples.C; Samples.D; Samples.A; Samples.B].
Proof.
  destruct render_order_stable_partition as (_ & _ & Hex).
  apply Hex; vm_compute; congruence.
Defined.

(** *** Trends against the baseline *)

Lemma find_slot_None {A} (p : A → bool) (l : list A) i :
  Forall (λ x, p x = false) l → find_slot p l i = None.
Proof.
  intros Hall. revert i. induction Hall as [|x l Hx _ IH]; intros i; [done|].
  cbn. by rewrite Hx.
Qed.

Lemma compareToBaseline_no_baseline st i :
  baseline st = None → compareToBaseline i st = None.
Proof. unfold compareToBaseline. intros ->. by destruct (_ =? _)%nat. Qed.

(** C9: the baseline is the first entry carrying the pinned identifier
    when a pin is set and the most recent entry otherwise; the compared
    entry is [countyHistory[i]]; the comparison is [null] for an empty
    history, when no baseline resolves, when the index names no entry, and
    when the compared entry is the baseline itself, so that without a pin
    the most recent entry has no trend; in every other case each of the
    three statistics of the compared entry gets its own trend against the
    baseline, up, down or same when both values are there and [null] when
    one is missing. *)
Theorem compare_to_resolved_baseline st i :
  (∀ p, pinnedBaselineFips st = Some p → p ≠ "" →
        baseline st = find_slot (λ c, String.eqb (fips c) p) (countyHistory st) 0) ∧
  (pinnedBaselineFips st = None ∨ pinnedBaselineFips st = Some "" →
     baseline st = (λ c, (0%nat, c)) <$> head (countyHistory st)) ∧
  (countyHistory st = [] → compareToBaseline i st = None) ∧
  (baseline st = None → compareToBaseline i st = None) ∧
  (i < 0 ∨ Z.of_nat (length (countyHistory st)) <= i → compareToBaseline i st = None) ∧
  (∀ base, baseline st = Some (Z.to_nat i, base) → compareToBaseline i st = None) ∧
  (pinnedBaselineFips st = None → compareToBaseline 0 st = None) ∧
  (∀ slot base curr,
     baseline st = Some (slot, base) →
     0 <= i → countyHistory st !! Z.to_nat i = Some curr →
     slot ≠ Z.to_nat i →
     compareToBaseline i st
     = Some {| populationTrend := trend (population curr) (population base);
               medianAgeTrend := trend (medianAge curr) (medianAge base);
               medianIncomeTrend := trend (medianIncome curr) (medianIncome base) |}) ∧
  (∀ x y, trend (Some x) (Some y)
          = Some (if gt x y then up else if lt x y then down else same)) ∧
  (∀ a, trend a None = None ∧ trend None a = None).
Proof.
  split_and!.
  - intros p Hp Hne. unfold baseline. rewrite Hp.
    by apply String.eqb_neq in Hne as ->.
  - intros [Hp|Hp]; unfold baseline; by rewrite Hp.
  - intros Hh. unfold compareToBaseline. by rewrite Hh.
  - apply compareToBaseline_no_baseline.
  - intros Hout. unfold compareToBaseline, at_index.
    destruct (_ =? _)%nat; [done|]. destruct (baseline st) as [[slot base]|]; [|done].
    destruct (Z.ltb_spec i 0) as [|Hpos]; [done|].
    rewrite lookup_ge_None_2; [done|]. lia.
  - intros base Hb. unfold compareToBaseline. rewrite Hb.
    destruct (_ =? _)%nat; [done|]. destruct (at_index st i); [|done].
    by rewrite Nat.eqb_refl.
  - intros Hp. unfold compareToBaseline, baseline, at_index. rewrite Hp.
    by destruct (countyHistory st).
  - intros slot base curr Hb Hpos Hc Hne. unfold compareToBaseline, at_index. rewrite Hb.
    destruct (Z.ltb_spec i 0) as [|_]; [lia|]. rewrite Hc.
    destruct (countyHistory st) as [|c h] eqn:Hh; [done|].
    cbn. by apply Nat.eqb_neq in Hne as ->.
  - done.
  - by intros [a|].
Qed.

(** C9 on the sample counties: with [B] pinned the oldest entry [C],
    at index 2, is compared against [B] and has the smaller population;
    with [C] pinned the most recent entry [A] is compared against [C];
    the pinned entry, the most recent entry without a pin, an index
    behind the last entry and an entry under a pin that names no stored
    county get no trends. *)
Lemma compare_to_resolved_baseline_witness :
  compareToBaseline 2
    {| countyHistory := [Samples.A; Samples.B; Samples.C];
       pinnedBaselineFips := Some "06073" |}
  = Some {| populationTrend := Some down; medianAgeTrend := None;
            medianIncomeTrend := Some same |}
  ∧ compareToBaseline 0
      {| countyHistory := [Samples.A; Samples.B; Samples.C];
         pinnedBaselineFips := Some "06059" |}
    = Some {| populationTrend := Some up; medianAgeTrend := None;
              medianIncomeTrend := Some same |}
  ∧ compareToBaseline 0
      {| countyHistory := [Samples.A; Samples.B; Samples.C];
         pinnedBaselineFips := None |} = None
  ∧ compareToBaseline 2
      {| countyHistory := [Samples.A; Samples.B; Samples.C];
         pinnedBaselineFips := Some "06059" |} = None
  ∧ compareToBaseline 3
      {| countyHistory := [Samples.A; Samples.B; Samples.C];
         pinnedBaselineFips := Some "06059" |} = None
  ∧ compareToBaseline 1
      {| countyHistory := [Samples.A; Samples.B; Samples.C];
         pinnedBaselineFips := Some "01001" |} = None
  ∧ compareToBaseline 0 initial = None.
Proof.
  split_and!.
  - destruct (compare_to_resolved_baseline
                {| countyHistory := [Samples.A; Samples.B; Samples.C];
                   pinnedBaselineFips := Some "06073" |} 2)
      as (_ & _ & _ & _ & _ & _ & _ & Hother & _).
    by rewrite (Hother 1%nat Samples.B Samples.C).
  - destruct (compare_to_resolved_baseline
                {| countyHistory := [Samples.A; Samples.B; Samples.C];
                   pinnedBaselineFips := Some "06059" |} 0)
      as (_ & _ & _ & _ & _ & _ & _ & Hother & _).
    by rewrite (Hother 2%nat Samples.C Samples.A).
  - destruct (compare_to_resolved_baseline
                {| countyHistory := [Samples.A; Samples.B; Samples.C];
                   pinnedBaselineFips := None |} 0)
      as (_ & _ & _ & _ & _ & _ & Hrecent & _).
    by apply Hrecent.
  - destruct (compare_to_resolved_baseline
                {| countyHistory := [Samples.A; Samples.B; Samples.C];
                   pinnedBaselineFips := Some "06059" |} 2)
      as (_ & _ & _ & _ & _ & Hself & _).
    by apply (Hself Samples.C).
  - destruct (compare_to_resolved_baseline
                {| countyHistory := [Samples.A; Samples.B; Samples.C];
                   pinnedBaselineFips := Some "06059" |} 3)
      as (_ & _ & _ & _ & Hout & _).
    apply Hout. right. cbn. lia.
  - destruct (compare_to_resolved_baseline
                {| countyHistory := [Samples.A; Samples.B; Samples.C];
                   pinnedBaselineFips := Some "01001" |} 1)
      as (_ & _ & _ & Hnone & _).
    by apply Hnone.
  - destruct (compare_to_resolved_baseline initial 0) as (_ & _ & Hempty & _).
    by apply Hempty.
Defined.

(** *** A pin whose entry has left the history *)

Lemma stale_pin_no_baseline st p :
  pinnedBaselineFips st = Some p → p ≠ "" → p ∉ fips <$> countyHistory st →
  baseline st = None.
Proof.
  intros Hp Hne Hstale. unfold baseline. rewrite Hp.
  apply String.eqb_neq in Hne as ->. cbn.
  apply find_slot_None, Forall_forall. intros c Hc.
  apply String.eqb_neq. intros Heq. apply Hstale.
  apply list_elem_of_fmap. by exists c.
Qed.

(** C10: when the pinned identifier matches no stored entry, every
    comparison is [null], with no fall-back to the most recent entry.
    Such a state is reachable: a visit never touches the pin, so ten
    visits after pinning push the pinned entry out and leave the pin
    set. *)
Theorem stale_pin_hides_all_trends :
  (∀ st p, pinnedBaselineFips st = Some p → p ≠ "" →
           p ∉ fips <$> countyHistory st →
           (∀ i, compareToBaseline i st = None) ∧
           Forall (λ row, row.1.2 = None) (renderHistoryPanel st)) ∧
  (∀ c st, pinnedBaselineFips (recordCountyHistory c st) = pinnedBaselineFips st) ∧
  (∃ actions p,
     pinnedBaselineFips (run actions) = Some p ∧ p ≠ "" ∧
     (p ∉ fips <$> countyHistory (run actions)) ∧
     length (countyHistory (run actions)) = 10%nat).
Proof.
  split_and!.
  - intros st p Hp Hne Hstale.
    assert (∀ i, compareToBaseline i st = None) as Hnone.
    { intros i. by apply compareToBaseline_no_baseline, (stale_pin_no_baseline st p). }
    split; [done|]. unfold renderHistoryPanel.
    apply Forall_fmap, Forall_forall. intros entry _. apply Hnone.
  - done.
  - exists Samples.evicting_run, "06037". split_and!; [done|done| |done].
    apply (bool_decide_unpack _). by vm_compute.
Qed.

(** C10 on the sample run: the pin still names the county of [A], which
    is no longer stored, and the second entry gets no trend although the
    first one could serve as a baseline. *)
Lemma stale_pin_hides_all_trends_witness :
  pinnedBaselineFips (run Samples.evicting_run) = Some "06037"
  ∧ compareToBaseline 1 (run Samples.evicting_run) = None
  ∧ compareToBaseline 1
      {| countyHistory := countyHistory (run Samples.evicting_run);
         pinnedBaselineFips := None |}
    = Some {| populationTrend := Some same; medianAgeTrend := None;
              medianIncomeTrend := Some same |}.
Proof.
  split_and!; [reflexivity| |reflexivity].
  destruct stale_pin_hides_all_trends as (Hstale & _ & _).
  apply (Hstale (run Samples.evicting_run) "06037"); [reflexivity|discriminate|].
  apply (bool_decide_unpack _). vm_compute. exact I.
Defined.

End history_facts.

(** ** Drill-down navigation *)

Section navigation_facts.
Import Navigation.

Variable counties : list Feature.

Implicit Types (layer data : list Feature) (state : Feature) (nav : Nav).

Lemma first_with_None k layer i :
  k ∉ id <$> layer → first_with k layer i = None.
Proof.
  revert i. induction layer as [|n layer IH]; intros i; [done|].
  rewrite fmap_cons, not_elem_of_cons. intros [Hne Hnot]. cbn.
  destruct (String.eqb_spec (id n) k) as [Heq|_]; [by subst|]. by apply IH.
Qed.

Lemma bindKey_fresh layer bound data :
  Forall (λ d, id d ∉ id <$> layer) data →
  bindKey layer bound data = (λ d, (d, None)) <$> data.
Proof.
  induction 1 as [|d data Hd _ IH]; [done|]. cbn.
  by rewrite first_with_None, IH.
Qed.

Lemma next_update_fresh data :
  next_update ((λ d, (d, @None nat)) <$> data) = None.
Proof. by induction data. Qed.

Lemma entering_fresh data :
  entering ((λ d, (d, None)) <$> data) = (λ d, (d, None)) <$> data.
Proof.
  induction data as [|d data IH]; [done|]. cbn.
  by rewrite next_update_fresh, IH.
Qed.

Lemma datum_for_fresh j data : datum_for j ((λ d, (d, None)) <$> data) = None.
Proof. by induction data. Qed.

Lemma fresh_before j data :
  List.filter (λ e : Feature * option nat, bool_decide (e.2 = Some j))
              ((λ d, (d, None)) <$> data) = [].
Proof. by induction data. Qed.

Lemma fresh_appended data :
  (List.filter (λ e : Feature * option nat, bool_decide (e.2 = None))
               ((λ d, (d, None)) <$> data)).*1 = data.
Proof. induction data as [|d data IH]; [done|]. cbn. by rewrite IH. Qed.

Lemma join_singletons layer : mjoin ((λ n, [n]) <$> layer) = layer.
Proof. induction layer as [|n layer IH]; [done|]. csimpl. by rewrite IH. Qed.

(** Data none of whose keys is on the layer all enter behind it, and
    the elements already there stay. *)
Lemma enter_append_fresh layer data :
  Forall (λ d, id d ∉ id <$> layer) data →
  enter_append layer data = layer ++ data.
Proof.
  intros Hfresh. unfold enter_append.
  rewrite bindKey_fresh, entering_fresh, fresh_appended by done. f_equal.
  rewrite <- (join_singletons layer) at 2. f_equal.
  rewrite <- (imap_const (λ n : Feature, [n]) layer). apply imap_ext. intros j n _.
  by rewrite fresh_before, datum_for_fresh.
Qed.

Lemma children_reveal state :
  id <$> revealCounties counties state [] = children counties state.
Proof.
  unfold revealCounties, children. rewrite enter_append_fresh; [done|].
  apply Forall_forall. intros d _. cbn. apply not_elem_of_nil.
Qed.

(** Entering a state from the overview shows its counties in the order
    of the geography; leaving it shows nothing; selecting the selected
    state again leaves it. *)
Lemma enter_from_overview state nav :
  currentState nav = None → gCounties nav = [] →
  visible (zoomToState counties state nav) = children counties state.
Proof.
  intros Hc Hl. unfold zoomToState, visible. rewrite Hc, Hl. apply children_reveal.
Qed.

Lemma leave_shows_nothing nav : visible (zoomOut nav) = [].
Proof. done. Qed.

Lemma reselect_leaves state nav :
  currentState nav = Some state →
  zoomToState counties state nav = {| currentState := None; gCounties := [] |}.
Proof. intros Hc. unfold zoomToState. by rewrite Hc, String.eqb_refl. Qed.

Lemma prefix_of_child state c :
  c ∈ List.filter (λ c, String.eqb (String.substring 0 2 (id c)) (id state)) counties →
  String.substring 0 2 (id c) = id state.
Proof. rewrite list_elem_of_In, filter_In. intros [_ Heq]. by apply String.eqb_eq. Qed.

(** A direct switch from one state to another leaves the counties of
    the first state on the layer and puts those of the second behind
    them. *)
Lemma direct_switch_accumulates s s' nav :
  currentState nav = None → gCounties nav = [] → id s ≠ id s' →
  visible (zoomToState counties s' (zoomToState counties s nav))
  = children counties s ++ children counties s'.
Proof.
  intros Hc Hl Hne. unfold zoomToState at 2. rewrite Hc, Hl.
  unfold zoomToState, visible. cbn [currentState gCounties].
  rewrite (proj2 (String.eqb_neq _ _) Hne). cbn [gCounties].
  unfold revealCounties at 1. rewrite enter_append_fresh.
  - by rewrite fmap_app, children_reveal.
  - apply Forall_forall. intros d Hd%prefix_of_child.
    rewrite list_elem_of_fmap. intros (c & Hid & Hc').
    unfold revealCounties in Hc'. rewrite enter_append_fresh in Hc'.
    + apply prefix_of_child in Hc'. apply Hne. by rewrite <- Hc', <- Hd, Hid.
    + apply Forall_forall. intros ? _. apply not_elem_of_nil.
Qed.

End navigation_facts.

(** ** Rounding in the runtime *)

Section rounding_facts.
Import Js.

Lemma nearest_quotient a k :
  0 <= k →
  2 ^ k * (2 * ((a + 2 ^ k) `div` 2 ^ (k + 1)) - 1) <= a
  < 2 ^ k * (2 * ((a + 2 ^ k) `div` 2 ^ (k + 1)) + 1).
Proof.
  intros Hk. assert (0 < 2 ^ k) as Hpos by (by apply Z.pow_pos_nonneg).
  rewrite Z.pow_add_r, Z.pow_1_r by lia.
  pose proof (Z.div_mod (a + 2 ^ k) (2 ^ k * 2) ltac:(lia)) as Hdm.
  pose proof (Z.mod_pos_bound (a + 2 ^ k) (2 ^ k * 2) ltac:(lia)) as Hr.
  lia.
Qed.

(** [toFixed(1)] of a double [m * 2^e] below 10^21 is a decimal within
    half a tenth of it, the upper one at equal distance. *)
Lemma toFixed1_nearest s m e s' n :
  toFixed1 (S754_finite s m e) = Digits s' n →
  s' = s ∧
  if 0 <=? e then n = 10 * (Zpos m * 2 ^ e)
  else 2 ^ (- e) * (2 * n - 1) <= 20 * Zpos m < 2 ^ (- e) * (2 * n + 1).
Proof.
  unfold toFixed1. destruct (Z.leb_spec 0 e) as [He|He].
  - destruct (_ <=? _); [done|]. by intros [= -> <-].
  - destruct (_ <=? _); [done|]. intros [= -> <-]. split; [done|].
    apply nearest_quotient. lia.
Qed.

(** [Math.round] of a double [± m * 2^e] that is not an integer is an
    integer within one half of it, the upper one at equal distance. *)
Lemma Math_round_nearest s m e :
  e < 0 →
  ∃ n, Math_round (S754_finite s m e) = (if n =? 0 then S754_zero s else of_Z n) ∧
       2 ^ (- e) * (2 * n - 1) <= 2 * cond_Zopp s (Zpos m)
       < 2 ^ (- e) * (2 * n + 1).
Proof.
  intros He. unfold Math_round. destruct (Z.leb_spec 0 e) as [?|_]; [lia|].
  eexists. split; [done|]. apply nearest_quotient. lia.
Qed.

End rounding_facts.

(** ** The income distribution *)

Section census_facts.
Import Js Census.
Context `{!Runtime}.

(** The percentage is [0] whenever the total is missing, not numeric or
    not positive. *)
Lemma pct_without_total n d :
  match d with Some d' => gt d' zero = false | None => True end →
  pct n d = zero.
Proof. destruct d as [d'|]; [|done]. cbn. by intros ->. Qed.

(** The distribution always has the five canonical labels, in order. *)
Lemma incomeDist_labels detRow :
  (incomeDist detRow).*1
  = ["< $25,000"; "$25,000 - $50,000"; "$50,000 - $75,000";
     "$75,000 - $100,000"; "> $100,000"].
Proof. done. Qed.

Lemma incomeDist_labels_canonical detRow :
  (incomeDist detRow).*1 = canonical_ranges.*1.
Proof. done. Qed.

(** The brackets that make up the five canonical ranges are the cells
    2-5, 6-10, 11-12, 13 and 14-17 of the row; only the first group is
    the one that [fetchCountyStats] sums. *)
Lemma canonical_slices detRow :
  constituents detRow (0, Some 25000) = slice 2 6 detRow
  ∧ constituents detRow (25000, Some 50000) = slice 6 11 detRow
  ∧ constituents detRow (50000, Some 75000) = slice 11 13 detRow
  ∧ constituents detRow (75000, Some 100000) = slice 13 14 detRow
  ∧ constituents detRow (100000, None) = slice 14 18 detRow.
Proof.
  unfold constituents, slice.
  destruct detRow as [|c0 [|c1 row]]; [done..|]. cbn [drop].
  do 16 (destruct row as [|? row]; [done|]). by destruct row.
Qed.

End census_facts.

(** C1: on a row with 1000 households whose bracket counts put 200, 300,
    200, 100 and 200 households into the five canonical ranges,
    [fetchCountyStats] reports 20, 24, 26, 15 and 15 percent: the bracket
    from 45,000 to 49,999 is counted under 50,000 to 75,000 and the one
    from 100,000 to 124,999 under 75,000 to 100,000. *)
Theorem income_ranges_shifted :
  @Census.incomeDist Js.digits_runtime Samples.detRow
  = [ ("< $25,000", Js.of_Z 20); ("$25,000 - $50,000", Js.of_Z 24);
      ("$50,000 - $75,000", Js.of_Z 26); ("$75,000 - $100,000", Js.of_Z 15);
      ("> $100,000", Js.of_Z 15) ]
  ∧ @Census.canonicalDist Js.digits_runtime Samples.detRow
    = [ ("< $25,000", Js.of_Z 20); ("$25,000 - $50,000", Js.of_Z 30);
        ("$50,000 - $75,000", Js.of_Z 20); ("$75,000 - $100,000", Js.of_Z 10);
        ("> $100,000", Js.of_Z 20) ].
Proof. split; by vm_compute. Qed.

(** C4: starting from the overview of the sample geography, selecting
    state 01 and then state 02 directly leaves all three counties of
    state 01 on display in front of the county of state 02, although the
    only child of state 02 is 02013; going through [zoomOut] in between
    shows 02013 alone. *)
Theorem switch_keeps_previous_counties :
  Navigation.visible
    (Navigation.zoomToState Samples.geography Samples.Alaska
       (Navigation.zoomToState Samples.geography Samples.Alabama Samples.overview))
  = ["01001"; "01003"; "01005"; "02013"]
  ∧ Navigation.children Samples.geography Samples.Alaska = ["02013"]
  ∧ Navigation.visible
      (Navigation.zoomToState Samples.geography Samples.Alaska
         (Navigation.zoomOut
            (Navigation.zoomToState Samples.geography Samples.Alabama
               Samples.overview)))
    = ["02013"].
Proof. split_and!; by vm_compute. Qed.

(** ** The age-bucket parse *)

Section age_facts.
Import Js Main.
Context `{!Runtime}.




End age_facts.



(** The guard lies one above the number of requested variables: a row
    of exactly 47 cells, one per variable and without the two geography
    codes that every response row ends with, is rejected as well, while
    the complete row gives 200 in every band. *)
Lemma age_row_of_expected_length_rejected :
  length Main.ageVars = 47%nat
  ∧ length Samples.age_cells = length Main.ageVars
  ∧ @Main.parseAgeData Js.digits_runtime (Some Samples.age_cells) = None
  ∧ (snd <$> default [] (@Main.parseAgeData Js.digits_runtime (Some Samples.age_response)))
    = replicate 23 (Js.Num (Js.of_Z 200)).
Proof. split_and!; by vm_compute. Qed.

(** ** The ethnicity breakdown *)

Section ethnicity_facts.
Import Js Breakdowns.
Context `{!Runtime}.

(** [Number(data.K)]; the sum of the five categories of the combined
    bucket; and [(x / total * 100).toFixed(1)]. *)
Local Abbreviation N data k := (ToNumber (field data k)).
Local Abbreviation other5 data :=
  (add (add (add (add (N data "B03002_007E") (N data "B03002_008E"))
                 (N data "B03002_009E"))
            (N data "B03002_010E"))
       (N data "B03002_011E")).
Local Abbreviation share data x :=
  (toFixed1 (mul (div x (N data "B03002_001E")) (of_Z 100))).

(** C2, as the code has it: without a truthy total the result is
    [null]; with one, each of the four named shares is count / total *
    100 through [toFixed(1)] and [other] is the share of the sum of the
    five categories [B03002_007E] to [B03002_011E], so that a breakdown
    of zeros is a result and not [null]; for a total of 1000 with 500,
    120, 200 and 80 in the named categories the shares are 50.0, 12.0,
    20.0 and 8.0, and [other] is 10.0 when the five categories sum to
    100. *)
Theorem ethnicity_shares data :
  (truthy (N data "B03002_001E") = false → computeEthnicityBreakdown data = None) ∧
  (truthy (N data "B03002_001E") = true →
     computeEthnicityBreakdown data
     = Some {| white := share data (N data "B03002_003E");
               black := share data (N data "B03002_004E");
               hispanic := share data (N data "B03002_012E");
               asian := share data (N data "B03002_006E");
               other := share data (other5 data) |}) ∧
  (N data "B03002_001E" = of_Z 1000 → N data "B03002_003E" = of_Z 500 →
   N data "B03002_004E" = of_Z 120 → N data "B03002_012E" = of_Z 200 →
   N data "B03002_006E" = of_Z 80 → other5 data = of_Z 100 →
     computeEthnicityBreakdown data
     = Some {| white := Digits false 500; black := Digits false 120;
               hispanic := Digits false 200; asian := Digits false 80;
               other := Digits false 100 |}).
Proof.
  unfold computeEthnicityBreakdown. cbv zeta. split_and!.
  - by intros ->.
  - by intros ->.
  - by intros -> -> -> -> -> ->.
Qed.

End ethnicity_facts.

Section ethnicity_examples.
Import Js Breakdowns.
#[local] Existing Instance digits_runtime.

(** C2 on the sample counts whose combined bucket holds 100 residents. *)
Lemma ethnicity_shares_witness :
  computeEthnicityBreakdown Samples.ethnicity'
  = Some {| white := Digits false 500; black := Digits false 120;
            hispanic := Digits false 200; asian := Digits false 80;
            other := Digits false 100 |}.
Proof.
  destruct (ethnicity_shares Samples.ethnicity') as (_ & _ & Hexample).
  apply Hexample; by vm_compute.
Defined.

(** C2 as stated fails: with total 1000, white 500, black 120, Hispanic
    200 and Asian 80, the remaining 100 residents being American Indian,
    [other] is 0.0 and not 10.0, while [white] is 50.0. *)
Lemma other_is_not_the_remainder :
  ToNumber (field Samples.ethnicity "B03002_001E") = of_Z 1000
  ∧ ToNumber (field Samples.ethnicity "B03002_003E") = of_Z 500
  ∧ ToNumber (field Samples.ethnicity "B03002_004E") = of_Z 120
  ∧ ToNumber (field Samples.ethnicity "B03002_012E") = of_Z 200
  ∧ ToNumber (field Samples.ethnicity "B03002_006E") = of_Z 80
  ∧ white <$> computeEthnicityBreakdown Samples.ethnicity = Some (Digits false 500)
  ∧ other <$> computeEthnicityBreakdown Samples.ethnicity = Some (Digits false 0)
  ∧ other <$> computeEthnicityBreakdown Samples.ethnicity ≠ Some (Digits false 100).
Proof. split_and!; by vm_compute. Qed.

(** The strings behind the two samples. *)
Lemma ethnicity_strings :
  (λ r, (fixed_string (white r), fixed_string (other r)))
    <$> computeEthnicityBreakdown Samples.ethnicity'
  = Some (Some "50.0", Some "10.0")
  ∧ (λ r, (fixed_string (white r), fixed_string (other r)))
      <$> computeEthnicityBreakdown Samples.ethnicity
    = Some (Some "50.0", Some "0.0").
Proof. split; by vm_compute. Qed.

End ethnicity_examples.

(** ** The generational breakdown *)

Section generation_facts.
Import Js Main Breakdowns.
Context `{!Runtime}.

Lemma add_zeros x y : is_zero x → is_zero y → is_zero (add x y).
Proof. intros [s ->] [s' ->]. destruct s, s'; by eexists. Qed.

Lemma strict_eq_zero x : is_zero x → strict_eq x zero = true.
Proof. by intros [s ->]. Qed.

(** Buckets that are all zero sum to zero. *)
Lemma ageTotal_zero age :
  Forall (λ kv, is_zero (ToNumber kv.2)) age → is_zero (ageTotal age).
Proof.
  unfold ageTotal. assert (is_zero zero) as Hacc by (by eexists).
  revert Hacc. generalize zero.
  induction age as [|kv age IH]; intros acc Hacc Hall; [done|].
  apply Forall_cons in Hall as [Hkv Hall]. cbn.
  apply IH; [by apply add_zeros | done].
Qed.

(** C3, as the code has it: for an age-bucket mapping whose values
    sum to zero, and so for one whose buckets are all zero,
    [calculateGenerationalBreakdown] returns the object of five cohorts
    that are all [0], not [null]; the older
    [computeGenerationalBreakdown], which reads its total from
    [B01001_001E], returns [null] when that total is zero or missing. *)
Theorem zero_population_generations :
  (∀ age, strict_eq (ageTotal age) zero = true →
          calculateGenerationalBreakdown (Some age)
          = Some (Flat {| GenAlpha := zero; GenZ := zero; Millennials := zero;
                          GenX := zero; BabyBoomers := zero |})) ∧
  (∀ age, Forall (λ kv, is_zero (ToNumber kv.2)) age →
          calculateGenerationalBreakdown (Some age)
          = Some (Flat {| GenAlpha := zero; GenZ := zero; Millennials := zero;
                          GenX := zero; BabyBoomers := zero |})) ∧
  (∀ data, truthy (ToNumber (field data "B01001_001E")) = false →
           computeGenerationalBreakdown data = None).
Proof.
  assert (∀ age, strict_eq (ageTotal age) zero = true →
                 calculateGenerationalBreakdown (Some age)
                 = Some (Flat {| GenAlpha := zero; GenZ := zero; Millennials := zero;
                                 GenX := zero; BabyBoomers := zero |})) as Hsum.
  { intros age Hz. unfold calculateGenerationalBreakdown. cbv zeta. by rewrite Hz. }
  split_and!; [done| |].
  - intros age Hall. by apply Hsum, strict_eq_zero, ageTotal_zero.
  - intros data Hz. unfold computeGenerationalBreakdown. cbv zeta. by rewrite Hz.
Qed.

(** The callers read [percentages] from the result, and the object of
    the zero branch has none. *)
Lemma zero_branch_without_percentages age :
  strict_eq (ageTotal age) zero = true →
  calculateGenerationalBreakdown (Some age) ≫= percentages = None.
Proof.
  intros Hz. unfold calculateGenerationalBreakdown. cbv zeta. by rewrite Hz.
Qed.

End generation_facts.

Section generation_examples.
Import Js Main Breakdowns.
#[local] Existing Instance digits_runtime.

(** C3 on a county without residents. *)
Lemma zero_population_generations_witness :
  calculateGenerationalBreakdown (Some Samples.empty_ages)
  = Some (Flat {| GenAlpha := zero; GenZ := zero; Millennials := zero;
                  GenX := zero; BabyBoomers := zero |})
  ∧ calculateGenerationalBreakdown (Some [])
    = Some (Flat {| GenAlpha := zero; GenZ := zero; Millennials := zero;
                    GenX := zero; BabyBoomers := zero |})
  ∧ computeGenerationalBreakdown Samples.empty_county = None.
Proof.
  destruct zero_population_generations as (Hsum & Hall & Hold).
  split_and!.
  - apply Hall. repeat constructor; by exists false.
  - by apply Hsum.
  - by apply Hold.
Defined.

(** C3 as stated fails for [computeGenerationalBreakdown]: the record
    of a county whose age table is zero throughout gets [null], not five
    zeros. *)
Lemma old_breakdown_null_on_zero_total :
  ToNumber (field Samples.empty_county "B01001_001E") = zero
  ∧ Forall (λ k, ToNumber (field Samples.empty_county k) = zero) ageVars
  ∧ computeGenerationalBreakdown Samples.empty_county = None.
Proof. split_and!; [done| |done]. repeat constructor. Qed.

End generation_examples.

(** ** The income percentile *)

Section percentile_facts.
Import Js Main.

(** C5, as the code has it: for an income that is truthy, so neither
    missing nor zero nor [NaN], and a comparison list that is not empty,
    the percentile is [Math.round(below / length * 100)] with [below]
    the number of comparison incomes strictly under it; it is [null]
    for an empty list and for a missing or falsy income, which is what
    [data.income?.medianHousehold || null] makes of a zero. *)
Theorem percentile_of_truthy_income v incomes :
  (truthy v = true → incomes ≠ [] →
     countyPercentile (Some v) incomes
     = Some (Math_round
               (mul (div (of_nat (length (List.filter (λ inc, lt inc v) incomes)))
                         (of_nat (length incomes)))
                    (of_Z 100)))) ∧
  countyPercentile (Some v) [] = None ∧
  countyPercentile None incomes = None ∧
  (truthy v = false → countyPercentile (Some v) incomes = None) ∧
  (∀ data, medianHouseholdOf data = Some v → truthy v = false →
           medianIncomeOf data = None) ∧
  (∀ data, medianHouseholdOf data = Some v → truthy v = true →
           medianIncomeOf data = Some v).
Proof.
  unfold countyPercentile, medianIncomeOf. split_and!.
  - intros -> Hne. by destruct incomes.
  - by rewrite andb_false_r.
  - done.
  - by intros ->.
  - by intros data -> ->.
  - by intros data -> ->.
Qed.

(** C5 on the incomes 20000 to 100000: two of five lie under 60000. *)
Lemma percentile_of_truthy_income_witness :
  countyPercentile (Some (of_Z 60000))
    (of_Z <$> [20000; 40000; 60000; 80000; 100000])
  = Some (of_Z 40).
Proof.
  destruct (percentile_of_truthy_income (of_Z 60000)
              (of_Z <$> [20000; 40000; 60000; 80000; 100000])) as (Hp & _).
  by rewrite Hp.
Defined.

(** C5 as stated fails: a median household income of zero is an income
    value that is not [null], the comparison list is not empty, and yet
    the code yields [null] where the stated formula yields [0]. *)
Lemma zero_income_has_no_percentile :
  medianHouseholdOf Samples.no_income = Some zero
  ∧ countyPercentile (medianIncomeOf Samples.no_income) [of_Z 50000] = None
  ∧ countyPercentile (medianHouseholdOf Samples.no_income) [of_Z 50000] = None
  ∧ claimedPercentile (medianHouseholdOf Samples.no_income) [of_Z 50000]
    = Some zero.
Proof. split_and!; by vm_compute. Qed.

End percentile_facts.

(** ** Numbers that are never [NaN] *)

Section number_facts.
Import Js Numbers.

Lemma iter_pos_invariant {A} (P : A → Prop) (f : A → A) n x :
  (∀ y, P y → P (f y)) → P x → P (SpecFloat.iter_pos f n x).
Proof.
  intros Hf. revert x. induction n as [n IH|n IH|]; intros x Hx; cbn; auto.
Qed.

Lemma shr_1_nonneg mrs : 0 <= shr_m mrs → 0 <= shr_m (shr_1 mrs).
Proof.
  destruct mrs as [m r s]. cbn. intros Hm.
  destruct m as [|[p|p|]|p]; cbn; lia.
Qed.

Lemma shr_nonneg mrs e n : 0 <= shr_m mrs → 0 <= shr_m (shr mrs e n).1.
Proof.
  intros Hm. destruct n as [|p|p]; cbn; [done| |done].
  by apply iter_pos_invariant; [apply shr_1_nonneg|].
Qed.

Lemma shr_fexp_nonneg m e l : 0 <= m → 0 <= shr_m (shr_fexp prec emax m e l).1.
Proof.
  intros Hm. unfold shr_fexp. apply shr_nonneg.
  by destruct l as [|[]].
Qed.

Lemma round_nearest_even_nonneg m l : 0 <= m → 0 <= round_nearest_even m l.
Proof.
  intros Hm. destruct l as [|[]]; cbn; [done| |done|lia]. destruct (Z.even m); lia.
Qed.

(** Rounding a mantissa that is not negative gives a number of the
    requested sign, never [NaN]. *)
Lemma binary_round_aux_sign s m e l :
  0 <= m → has_sign s (binary_round_aux prec emax s m e l).
Proof.
  intros Hm. unfold binary_round_aux.
  pose proof (shr_fexp_nonneg m e l Hm) as H1.
  destruct (shr_fexp prec emax m e l) as [mrs' e'] eqn:E1. cbn in H1.
  pose proof (shr_fexp_nonneg (round_nearest_even (shr_m mrs') (loc_of_shr_record mrs')) e'
                loc_Exact (round_nearest_even_nonneg _ _ H1)) as H2.
  destruct (shr_fexp prec emax _ e' loc_Exact) as [mrs'' e''] eqn:E2. cbn in H2.
  destruct (shr_m mrs'') as [|p|p]; [done| |lia].
  by destruct (_ <=? _).
Qed.

Lemma binary_round_sign s m e : has_sign s (binary_round prec emax s m e).
Proof.
  unfold binary_round. destruct (shl_align _ _ _) as [mz ez].
  by apply binary_round_aux_sign.
Qed.

Lemma binary_normalize_sign z e :
  ∃ s, has_sign s (binary_normalize prec emax z e false) ∧ (0 <= z → s = false).
Proof.
  destruct z as [|p|p]; cbn.
  - by exists false.
  - exists false. split; [apply binary_round_sign|done].
  - exists true. split; [apply binary_round_sign|lia].
Qed.

Lemma has_sign_number s x : has_sign s x → x ≠ NaN.
Proof. by destruct x. Qed.

Lemma number_has_sign x : x ≠ NaN → ∃ s, has_sign s x.
Proof. destruct x as [s|s| |s m e]; [by exists s..|done|by exists s]. Qed.

(** Multiplying by a finite number that is not zero never gives [NaN]
    out of a number. *)
Lemma mul_finite_sign s m e sy y :
  has_sign sy y → has_sign (xorb s sy) (mul (S754_finite s m e) y).
Proof.
  destruct y as [s2|s2| |s2 m2 e2]; cbn; try done; intros ->; try done.
  by apply binary_round_aux_sign.
Qed.

Lemma SFdiv_core_binary_nonneg m1 e1 m2 e2 :
  0 <= (SFdiv_core_binary prec emax (Z.pos m1) e1 (Z.pos m2) e2).1.1.
Proof.
  unfold SFdiv_core_binary. cbv zeta.
  set (s := e1 - e2 - _).
  set (m' := match s with
             | Z0 => Z.pos m1 | Z.pos _ => Z.shiftl (Z.pos m1) s | Z.neg _ => 0
             end).
  assert (0 <= m') as Hm'.
  { subst m'. destruct s as [|p|p] eqn:Hs; [lia| |lia].
    rewrite Z.shiftl_mul_pow2 by lia. apply Z.mul_nonneg_nonneg; [lia|].
    apply Z.pow_nonneg; lia. }
  pose proof (Z.div_pos m' (Z.pos m2) Hm' ltac:(lia)) as Hq.
  unfold Z.div in Hq. by destruct (Z.div_eucl m' (Z.pos m2)) as [q r].
Qed.

(** Dividing a number by a finite number that is not zero never gives
    [NaN]. *)
Lemma div_finite_sign sx x s m e :
  has_sign sx x → has_sign (xorb sx s) (div x (S754_finite s m e)).
Proof.
  destruct x as [s1|s1| |s1 m1 e1]; cbn; try done; intros ->; try done.
  pose proof (SFdiv_core_binary_nonneg m1 e1 m e) as Hq.
  destruct (SFdiv_core_binary prec emax (Z.pos m1) e1 (Z.pos m) e) as [[q ez] lz].
  by apply binary_round_aux_sign.
Qed.

Lemma add_nonneg x y : has_sign false x → has_sign false y → has_sign false (add x y).
Proof.
  destruct x as [s1|s1| |s1 m1 e1], y as [s2|s2| |s2 m2 e2]; cbn; try done;
    intros -> ->; try done.
  destruct (binary_normalize_sign
              (Z.pos (shl_align m1 e1 (Z.min e1 e2)).1
               + Z.pos (shl_align m2 e2 (Z.min e1 e2)).1)
              (Z.min e1 e2)) as (s & Hs & Hpos).
  rewrite Hpos in Hs by lia. exact Hs.
Qed.

(** Adding a finite number to a number never gives [NaN]. *)
Lemma add_finite_number x y : x ≠ NaN → isFinite y = true → add x y ≠ NaN.
Proof.
  destruct x as [s1|s1| |s1 m1 e1], y as [s2|s2| |s2 m2 e2]; cbn; try done.
  - by destruct s1, s2.
  - intros _ _.
    destruct (binary_normalize_sign
      (cond_Zopp s1 (Z.pos (shl_align m1 e1 (Z.min e1 e2)).1)
       + cond_Zopp s2 (Z.pos (shl_align m2 e2 (Z.min e1 e2)).1)) (Z.min e1 e2))
      as (s & Hs & _).
    intros Heq. unfold NaN in Heq. by rewrite Heq in Hs.
Qed.

(** The comparison of two Numbers read in the other direction. *)
Lemma SFcompare_swap a b : SFcompare b a = CompOpp <$> SFcompare a b.
Proof.
  destruct a as [s1|s1| |s1 m1 e1], b as [s2|s2| |s2 m2 e2]; cbn; try done;
    try (by destruct s1, s2); try (by destruct s1); try (by destruct s2).
  f_equal. rewrite (Z.compare_antisym e1 e2).
  destruct s1, s2; cbn; try done; destruct (e1 ?= e2) eqn:He; cbn; try done.
  all: by rewrite (Pos.compare_cont_antisym m1 m2 Eq).
Qed.

Lemma lt_asym a b : lt a b = true → lt b a = false.
Proof.
  unfold lt, SFltb. rewrite (SFcompare_swap a b).
  by destruct (SFcompare a b) as [[]|].
Qed.

Lemma lt_irrefl a : lt a a = false.
Proof. destruct (lt a a) eqn:H; [|done]. by rewrite (lt_asym a a H) in H. Qed.

(** A finite number minus itself is [0]. *)
Lemma sub_self x : isFinite x = true → sub x x = zero.
Proof.
  destruct x as [s|s| |s m e]; cbn; try done; [by destruct s|].
  intros _. rewrite Z.min_id. unfold shl_align. rewrite Z.sub_diag. cbn.
  by rewrite ?Z.sub_diag.
Qed.

Lemma of_fixed_digits_sign s n : 0 <= n → has_sign s (of_fixed (Digits s n)).
Proof.
  intros Hn. destruct n as [|n|n]; [done| |lia]. cbn [of_fixed].
  rewrite <- (xorb_false_r s) at 1. by apply div_finite_sign.
Qed.

Lemma toFixed1_digits x s n : toFixed1 x = Digits s n → 0 <= n.
Proof.
  destruct x as [s'|s'| |s' m e]; unfold toFixed1; try done; [by intros [= <- <-]|].
  destruct (Z.leb_spec 0 e) as [He|He]; (destruct (_ <=? _); [done|]); intros [= <- <-].
  - apply Z.mul_nonneg_nonneg; [lia|]. apply Z.mul_nonneg_nonneg; [lia|].
    apply Z.pow_nonneg; lia.
  - apply Z.div_pos; [|apply Z.pow_pos_nonneg; lia].
    assert (0 <= 2 ^ (- e)) by (apply Z.pow_nonneg; lia). lia.
Qed.

(** [toFixed(1)] never yields negative digits, so reading its string
    back never gives [NaN] out of a number, and gives a number that is
    not negative out of one that is not negative. *)
Lemma of_fixed_toFixed1_number x : x ≠ NaN → of_fixed (toFixed1 x) ≠ NaN.
Proof.
  intros Hx. destruct (toFixed1 x) as [s n|y] eqn:Hfix.
  - apply (has_sign_number s), of_fixed_digits_sign. by eapply toFixed1_digits.
  - destruct x as [s'|s'| |s' m e]; unfold toFixed1 in Hfix; try done;
      [by injection Hfix as <-|].
    destruct (0 <=? e); destruct (_ <=? _); by try injection Hfix as <-.
Qed.

Lemma of_fixed_toFixed1_nonneg x :
  has_sign false x → has_sign false (of_fixed (toFixed1 x)).
Proof.
  intros Hx. destruct (toFixed1 x) as [s n|y] eqn:Hfix.
  - assert (s = false) as ->.
    { destruct x as [s'|s'| |s' m e]; unfold toFixed1 in Hfix; cbn in Hx; try done;
        [by injection Hfix|].
      subst s'. destruct (0 <=? e); destruct (_ <=? _); by try injection Hfix. }
    apply of_fixed_digits_sign. by eapply toFixed1_digits.
  - destruct x as [s'|s'| |s' m e]; unfold toFixed1 in Hfix; cbn in Hx; try done.
    + by injection Hfix as <-.
    + subst s'. destruct (0 <=? e); destruct (_ <=? _); by try injection Hfix as <-.
Qed.

End number_facts.

(** ** The income distribution never shows [NaN] *)

Section census_numbers.
Import Js Numbers Census.
Context `{!Runtime}.

Lemma num_finite x n : num x = Some n → isFinite n = true.
Proof. unfold num. destruct (isFinite (ToNumber x)) eqn:Hfin; by intros [= <-]. Qed.

Lemma sum_from_number arr acc :
  acc ≠ NaN → foldl (λ a v, add a (default zero (num v))) acc arr ≠ NaN.
Proof.
  revert acc. induction arr as [|v arr IH]; intros acc Hacc; [done|]. cbn. apply IH.
  apply add_finite_number; [done|].
  destruct (num v) as [n|] eqn:Hn; [by eapply num_finite|done].
Qed.

Lemma sum_number arr : sum arr ≠ NaN.
Proof. by apply sum_from_number. Qed.

Lemma sum_from_nonneg arr acc :
  has_sign false acc →
  Forall (λ v, ∀ n, num v = Some n → has_sign false n) arr →
  has_sign false (foldl (λ a v, add a (default zero (num v))) acc arr).
Proof.
  revert acc. induction arr as [|v arr IH]; intros acc Hacc Hall; [done|].
  apply Forall_cons in Hall as [Hv Hall]. cbn. apply IH; [|done].
  apply add_nonneg; [done|]. destruct (num v) as [n|]; [by apply Hv|done].
Qed.

Lemma sum_nonneg arr :
  Forall (λ v, ∀ n, num v = Some n → has_sign false n) arr → has_sign false (sum arr).
Proof. by apply sum_from_nonneg. Qed.

Lemma gt_zero_finite d : gt d zero = true → isFinite d = true → ∃ m e, d = S754_finite false m e.
Proof. destruct d as [s|s| |[] m e]; try done. by eexists _, _. Qed.

Lemma pct_number n d :
  n ≠ NaN → (∀ d', d = Some d' → isFinite d' = true) → pct n d ≠ NaN.
Proof.
  intros Hn Hd. destruct d as [d'|]; [|done]. cbn.
  destruct (gt d' zero) eqn:Hpos; [|done].
  destruct (gt_zero_finite d' Hpos (Hd _ eq_refl)) as (m & e & ->).
  destruct (number_has_sign n Hn) as [s Hs].
  apply of_fixed_toFixed1_number, (has_sign_number (xorb (xorb false s) false)).
  by apply div_finite_sign, (mul_finite_sign false).
Qed.

Lemma pct_nonneg n d :
  has_sign false n → (∀ d', d = Some d' → isFinite d' = true) → has_sign false (pct n d).
Proof.
  intros Hn Hd. destruct d as [d'|]; [|done]. cbn.
  destruct (gt d' zero) eqn:Hpos; [|done].
  destruct (gt_zero_finite d' Hpos (Hd _ eq_refl)) as (m & e & ->).
  apply of_fixed_toFixed1_nonneg.
  by apply (div_finite_sign false _ false), (mul_finite_sign false _ _ false).
Qed.

(** X1: whatever the detail row holds, missing, empty or non-numeric
    cells included, none of the five percentages of [fetchCountyStats] is
    [NaN]. *)
Theorem incomeDist_never_NaN detRow :
  Forall (λ entry, entry.2 ≠ NaN) (incomeDist detRow).
Proof.
  unfold incomeDist. cbv zeta.
  repeat (apply Forall_cons; split; [apply pct_number;
    [apply sum_number | intros d' Hd'; by eapply num_finite]|]).
  constructor.
Qed.

(** X2: when no bracket cell of the row is a negative number, every
    percentage is [0], a positive number or [Infinity], never negative. *)
Theorem incomeDist_never_negative detRow :
  Forall (λ v, ∀ n, num v = Some n → has_sign false n) (drop 2 detRow) →
  Forall (λ entry, has_sign false entry.2) (incomeDist detRow).
Proof.
  intros Hcells. unfold incomeDist. cbv zeta.
  assert (∀ a b, (2 ≤ a)%nat → has_sign false (sum (slice a b detRow))) as Hsum.
  { intros a b Ha. apply sum_nonneg. unfold slice. apply Forall_take.
    replace a with (2 + (a - 2))%nat by lia. rewrite <- drop_drop.
    by apply Forall_drop. }
  repeat (apply Forall_cons; split;
          [cbn [snd]; apply pct_nonneg;
           [apply Hsum; lia | intros d' Hd'; by eapply num_finite]|]).
  constructor.
Qed.

End census_numbers.

(** ** The cache of county statistics *)

Section cache_facts.
Import Js Numbers Stats.
Context `{!Runtime}.

Implicit Types (cache : gmap string CountyStats) (page : Page).

Lemma length_app_string (a b : string) :
  String.length (a +:+ b) = (String.length a + String.length b)%nat.
Proof. induction a as [|c a IH]; [done|]. simpl. by rewrite IH. Qed.

Lemma length_zeros k : String.length (zeros k) = k.
Proof.
  induction k as [|k IH]; [done|].
  change (zeros (S k)) with ("0" +:+ zeros k). by rewrite length_app_string, IH.
Qed.

Lemma length_padStart n s : String.length (padStart n s) = (n `max` String.length s)%nat.
Proof. unfold padStart. rewrite length_app_string, length_zeros. lia. Qed.

Lemma app_string_inj (a a' b b' : string) :
  String.length a = String.length a' → a +:+ b = a' +:+ b' → a = a' ∧ b = b'.
Proof.
  revert a'. induction a as [|c a IH]; intros [|c' a'] Hlen Heq; try done.
  simpl in Hlen, Heq. injection Heq as -> Heq.
  destruct (IH a' ltac:(lia) Heq) as [-> ->]. done.
Qed.

(** Codes of at most two and three characters give a key of exactly
    five, and two such pairs share a key only when their padded codes
    agree. *)
Lemma cacheKey_length s c :
  (String.length s ≤ 2)%nat → (String.length c ≤ 3)%nat →
  String.length (cacheKey s c) = 5%nat.
Proof.
  intros Hs Hc. unfold cacheKey. rewrite length_app_string, !length_padStart. lia.
Qed.

Lemma cacheKey_inj s c s' c' :
  (String.length s ≤ 2)%nat → (String.length s' ≤ 2)%nat →
  cacheKey s c = cacheKey s' c' →
  padStart 2 s = padStart 2 s' ∧ padStart 3 c = padStart 3 c'.
Proof.
  intros Hs Hs'. apply app_string_inj. rewrite !length_padStart. lia.
Qed.

Lemma resume_cases cache key subj det :
  resume cache key subj det = (Rejected, cache) ∨
  ∃ stats, fips stats = key ∧
           resume cache key subj det = (Resolved stats, <[key := stats]> cache).
Proof.
  unfold resume.
  destruct subj as [|[subj|]]; try by left.
  destruct det as [|[det|]]; try by left.
  destruct (_ || _); [by left|]. right. eexists. split; [|reflexivity]. done.
Qed.

Lemma elem_of_without k k' l : k ∈ without k' l → k ∈ l.
Proof.
  induction l as [|x l IH]; [done|]. cbn. destruct (String.eqb x k').
  - apply list_elem_of_further.
  - rewrite !elem_of_cons. intros [->|Hk]; [by left|right; by apply IH].
Qed.

Lemma run_snoc_event page events e : run page (events ++ [e]) = step (run page events) e.
Proof. unfold run. by rewrite foldl_app. Qed.

(** One step leaves an entry of another key alone, and an entry of a
    key for which no call waits as well. *)
Lemma step_keeps page e k stats :
  cache page !! k = Some stats → (k ∉ inFlight page) →
  cache (step page e) !! k = Some stats ∧ (k ∉ inFlight (step page e)).
Proof.
  intros Hk Hfree. destruct e as [s c|key subj det]; cbn [step].
  - unfold fetchCountyStats. cbv zeta.
    destruct (cache page !! cacheKey s c) as [stats'|] eqn:Hc; [done|].
    cbn. split; [done|]. rewrite not_elem_of_cons. split; [|done].
    intros ->. by rewrite Hk in Hc.
  - case_bool_decide as Hin; [|done]. cbn. split.
    + destruct (resume_cases (cache page) key subj det) as [->|(st & _ & ->)]; [done|].
      cbn. rewrite lookup_insert_ne; [done|]. by intros ->.
    + intros Hk'. by apply Hfree, (elem_of_without _ key).
Qed.

(** X3: once an object is cached under a key while no call for that key
    waits, as it is after a call that was awaited on its own, every later
    call whose codes pad to that key gets this very object without a
    request, whatever else is called and whatever arrives in between. *)
Theorem fetch_is_memoised page events k stats :
  cache page !! k = Some stats → (k ∉ inFlight page) →
  cache (run page events) !! k = Some stats ∧
  (k ∉ inFlight (run page events)) ∧
  ∀ s c, cacheKey s c = k →
         fetchCountyStats (cache (run page events)) s c = Cached stats.
Proof.
  intros Hk Hfree.
  assert (cache (run page events) !! k = Some stats ∧ (k ∉ inFlight (run page events)))
    as [Hk' Hfree'].
  { induction events as [|e events IH] using rev_ind; [done|].
    rewrite run_snoc_event. destruct IH as [IHk IHfree]. by apply step_keeps. }
  split_and!; [done..|]. intros s c <-. unfold fetchCountyStats. cbv zeta. by rewrite Hk'.
Qed.


(** X5: on a page that starts fresh, however the calls overlap, every
    cached object is filed under its own [fips], which is the padded
    state code followed by the padded county code of one of the calls
    made. *)
Theorem cache_filed_under_fips events k stats :
  cache (run fresh events) !! k = Some stats →
  fips stats = k ∧
  ∃ s c, Call s c ∈ events ∧ k = cacheKey s c.
Proof.
  assert ((∀ k stats, cache (run fresh events) !! k = Some stats →
             fips stats = k ∧ ∃ s c, Call s c ∈ events ∧ k = cacheKey s c) ∧
          (∀ k, k ∈ inFlight (run fresh events) →
             ∃ s c, Call s c ∈ events ∧ k = cacheKey s c)) as [Hcache _];
    [|by apply Hcache].
  clear k stats. induction events as [|e events [IHc IHf]] using rev_ind.
  { split; [done|]. by intros k ?%elem_of_nil. }
  assert (∀ k, (∃ s c, Call s c ∈ events ∧ k = cacheKey s c) →
               ∃ s c, Call s c ∈ events ++ [e] ∧ k = cacheKey s c) as Hmore.
  { intros k (s & c & Hin & Hk). exists s, c. split; [|done]. apply elem_of_app. by left. }
  rewrite run_snoc_event. remember (run fresh events) as page eqn:Hpage. clear Hpage.
  destruct e as [s c|key subj det]; cbn [step].
  - unfold fetchCountyStats. cbv zeta.
    destruct (cache page !! cacheKey s c) as [st|] eqn:Hc.
    + split; [intros k stats Hk|intros k Hk].
      * destruct (IHc k stats Hk) as [Hf Hcall]. split; [done|]. by apply Hmore.
      * by apply Hmore, IHf.
    + cbn. split; [intros k stats Hk|intros k Hk].
      * destruct (IHc k stats Hk) as [Hf Hcall]. split; [done|]. by apply Hmore.
      * apply elem_of_cons in Hk as [->|Hk]; [|by apply Hmore, IHf].
        exists s, c. split; [|done]. apply elem_of_app. right. apply list_elem_of_here.
  - case_bool_decide as Hin.
    + cbn. split; [intros k stats Hk|intros k Hk].
      * destruct (resume_cases (cache page) key subj det) as [Hr|(st & Hst & Hr)];
          rewrite Hr in Hk; cbn in Hk.
        { destruct (IHc k stats Hk) as [Hf Hcall]. split; [done|]. by apply Hmore. }
        destruct (decide (k = key)) as [->|Hne].
        { rewrite lookup_insert_eq in Hk. injection Hk as <-. split; [done|].
          by apply Hmore, IHf. }
        rewrite lookup_insert_ne in Hk by done.
        destruct (IHc k stats Hk) as [Hf Hcall]. split; [done|]. by apply Hmore.
      * by apply Hmore, IHf, (elem_of_without _ key).
    + split; [intros k stats Hk|intros k Hk].
      * destruct (IHc k stats Hk) as [Hf Hcall]. split; [done|]. by apply Hmore.
      * by apply Hmore, IHf.
Qed.

End cache_facts.

(** ** The key of the cache *)

Section cache_keys.
Import Js Numbers Stats.

(** X6: for a state code of at most two and a county code of at most
    three characters the key has five characters, and two calls share a
    cache entry exactly when their zero-padded codes agree. *)
Theorem cache_key_separates_counties s c s' c' :
  (String.length s ≤ 2)%nat → (String.length c ≤ 3)%nat →
  (String.length s' ≤ 2)%nat →
  String.length (cacheKey s c) = 5%nat ∧
  (cacheKey s c = cacheKey s' c'
   ↔ padStart 2 s = padStart 2 s' ∧ padStart 3 c = padStart 3 c').
Proof.
  intros Hs Hc Hs'. split; [by apply cacheKey_length|]. split.
  - by apply cacheKey_inj.
  - unfold cacheKey. by intros [-> ->].
Qed.

End cache_keys.

(** ** The history panel: revisits, rows and trends *)

Section panel_facts.
Import Js History.

Implicit Types (c d e : HistoryEntry) (h : list HistoryEntry) (st : HistoryState).

(** X7: only the latest record of a county counts: a visit followed by
    a visit with the same identifier leaves the state that the second
    visit alone would have left.  In particular opening a county twice
    in a row changes nothing the second time. *)
Theorem revisit_replaces_record c c' st :
  fips c' = fips c →
  recordCountyHistory c' (recordCountyHistory c st) = recordCountyHistory c' st.
Proof.
  intros Hf. destruct st as [h p]. unfold recordCountyHistory.
  cbn [countyHistory pinnedBaselineFips]. f_equal.
  change (take 10 (c' :: others (fips c') (take 10 (c :: others (fips c) h)))
          = take 10 (c' :: others (fips c') h)).
  rewrite Hf, !firstn_cons. f_equal.
  rewrite others_cons, String.eqb_refl.
  rewrite (others_all (fips c) (take 9 _)); [by rewrite take_take|].
  intros Hin. apply (others_not_elem (fips c) h).
  eapply elem_of_sublist; [exact Hin|]. apply fmap_sublist, sublist_take.
Qed.

Lemma filter_partition_Permutation {A} (p : A → bool) (l : list A) :
  List.filter p l ++ List.filter (λ x, negb (p x)) l ≡ₚ l.
Proof.
  induction l as [|x l IH]; [done|]. cbn. destruct (p x); cbn.
  - by f_equiv.
  - rewrite <- Permutation_middle. by f_equiv.
Qed.

Lemma panel_entries st : (renderHistoryPanel st).*1.*1 = sortedHistory st.
Proof.
  unfold renderHistoryPanel. induction (sortedHistory st) as [|e l IH]; [done|].
  cbn. by rewrite IH.
Qed.

(** X8: the panel shows every stored entry exactly once: the listed
    entries are a rearrangement of the stored ones, whatever the pin. *)
Theorem panel_lists_every_entry_once st :
  (renderHistoryPanel st).*1.*1 ≡ₚ countyHistory st.
Proof.
  rewrite panel_entries, sortedHistory_partition. apply filter_partition_Permutation.
Qed.

Lemma find_slot_lookup h i e k :
  NoDup (fips <$> h) → h !! i = Some e →
  find_slot (λ c, String.eqb (fips c) (fips e)) h k = Some ((k + i)%nat, e).
Proof.
  revert i k. induction h as [|c h IH]; intros i k Hnd Hi; [done|].
  rewrite fmap_cons in Hnd. apply NoDup_cons in Hnd as [Hc Hnd].
  destruct i as [|i]; cbn in Hi |- *.
  - injection Hi as ->. by rewrite String.eqb_refl, Nat.add_0_r.
  - destruct (String.eqb_spec (fips c) (fips e)) as [Heq|_].
    + destruct Hc. rewrite Heq. apply list_elem_of_fmap. exists e. split; [done|].
      by eapply list_elem_of_lookup_2.
    + rewrite (IH i (S k)) by done. do 2 f_equal. lia.
Qed.

Lemma originalIndex_lookup st i e :
  NoDup (fips <$> countyHistory st) → countyHistory st !! i = Some e →
  originalIndex st e = Z.of_nat i.
Proof.
  intros Hnd Hi. unfold originalIndex. by rewrite (find_slot_lookup _ i e 0).
Qed.

(** The row of a stored entry has no trends exactly when the entry sits
    in the slot of the baseline. *)
Lemma row_trends st j b i e :
  NoDup (fips <$> countyHistory st) →
  baseline st = Some (j, b) → countyHistory st !! i = Some e →
  compareToBaseline (originalIndex st e) st = None ↔ i = j.
Proof.
  intros Hnd Hb Hi. rewrite (originalIndex_lookup st i e) by done.
  unfold compareToBaseline, at_index. rewrite Hb.
  destruct (countyHistory st) as [|c h] eqn:Hh; [done|].
  rewrite <- Hh in *. replace (length (countyHistory st) =? 0)%nat with false
    by (by rewrite Hh).
  destruct (Z.ltb_spec (Z.of_nat i) 0) as [?|_]; [lia|]. rewrite Nat2Z.id, Hi.
  destruct (Nat.eqb_spec j i); split; (done || lia).
Qed.

Lemma filter_no_fips f h :
  f ∉ fips <$> h → List.filter (λ c, String.eqb (fips c) f) h = [].
Proof.
  induction h as [|d h IH]; [done|]. rewrite fmap_cons, not_elem_of_cons.
  intros [Hne Hnot]. cbn.
  destruct (String.eqb_spec (fips d) f) as [Heq|_]; [by destruct Hne|]. by apply IH.
Qed.

Lemma filter_by_fips h j b :
  NoDup (fips <$> h) → h !! j = Some b →
  List.filter (λ c, String.eqb (fips c) (fips b)) h = [b].
Proof.
  revert j. induction h as [|c h IH]; intros j Hnd Hj; [done|].
  rewrite fmap_cons in Hnd. apply NoDup_cons in Hnd as [Hc Hnd]. cbn.
  destruct j as [|j]; cbn in Hj.
  - injection Hj as ->. rewrite String.eqb_refl. f_equal. by apply filter_no_fips.
  - destruct (String.eqb_spec (fips c) (fips b)) as [Heq|_].
    + destruct Hc. rewrite Heq. apply list_elem_of_fmap. exists b. split; [done|].
      by eapply list_elem_of_lookup_2.
    + by apply (IH j).
Qed.

Lemma filter_none {A} (l : list A) : List.filter (λ _, false) l = [].
Proof. by induction l. Qed.

Lemma filter_all {A} (l : list A) : List.filter (λ _, true) l = l.
Proof. induction l as [|x l IH]; [done|]. cbn. by rewrite IH. Qed.

(** X9: in every state that visits and pin clicks can reach, as long as
    the history is not empty and the pin, if set, names a stored county,
    exactly one row of the panel is shown without trends: it is the first
    row and holds the baseline, the pinned county or else the most recent
    one.  Every other row gets its three trends. *)
Theorem baseline_row_is_first_and_alone actions :
  countyHistory (run actions) ≠ [] →
  (∀ p, pinnedBaselineFips (run actions) = Some p →
        p ≠ "" ∧ p ∈ fips <$> countyHistory (run actions)) →
  ∃ slot b rest,
    baseline (run actions) = Some (slot, b) ∧
    renderHistoryPanel (run actions) = (b, None, isPinned (run actions) b) :: rest ∧
    Forall (λ row, row.1.2 ≠ None) rest.
Proof.
  pose proof (history_NoDup actions) as Hnd. revert Hnd.
  generalize (run actions). intros st Hnd Hne Hpin.
  assert (∃ slot b tl,
             baseline st = Some (slot, b) ∧ countyHistory st !! slot = Some b ∧
             sortedHistory st = b :: tl ∧
             ∀ e, e ∈ tl → ∃ i, countyHistory st !! i = Some e ∧ i ≠ slot)
    as (slot & b & tl & Hb & Hslot & Hsort & Htl).
  { destruct (pinnedBaselineFips st) as [p|] eqn:Hp.
    - destruct (Hpin p eq_refl) as [Hp0 Hin].
      apply list_elem_of_fmap in Hin as (b & -> & Hin).
      apply list_elem_of_lookup_1 in Hin as [j Hj].
      exists j, b, (List.filter (λ c, negb (isPinned st c)) (countyHistory st)).
      split_and!.
      + unfold baseline. rewrite Hp. apply String.eqb_neq in Hp0 as ->. cbn.
        by rewrite (find_slot_lookup _ j b 0).
      + done.
      + rewrite sortedHistory_partition. unfold isPinned at 1. rewrite Hp.
        by rewrite (filter_by_fips _ j b).
      + intros e [He Hpe]%list_elem_of_In%filter_In.
        apply list_elem_of_In, list_elem_of_lookup_1 in He as [i Hi].
        exists i. split; [done|]. intros ->. rewrite Hj in Hi. injection Hi as ->.
        unfold isPinned in Hpe. by rewrite Hp, String.eqb_refl in Hpe.
    - destruct (countyHistory st) as [|c h] eqn:Hh; [done|].
      exists 0%nat, c, h. split_and!.
      + unfold baseline. by rewrite Hp, Hh.
      + done.
      + rewrite sortedHistory_partition, Hh. unfold isPinned. rewrite Hp. cbn.
        by rewrite filter_none, filter_all.
      + intros e [i Hi]%list_elem_of_lookup_1. by exists (S i). }
  exists slot, b,
    ((λ entry, (entry, compareToBaseline (originalIndex st entry) st, isPinned st entry))
       <$> tl).
  split_and!; [done| |].
  - unfold renderHistoryPanel. rewrite Hsort, fmap_cons.
    by rewrite (proj2 (row_trends st slot b slot b Hnd Hb Hslot) eq_refl).
  - apply Forall_fmap, Forall_forall. intros e He. cbn.
    destruct (Htl e He) as (i & Hi & Hne'). by rewrite (row_trends st slot b i e).
Qed.

Lemma marks_of_filter {A} (p : A → bool) (l : list A) (v : bool) :
  Forall (λ x, p x = v) l → p <$> l = replicate (length l) v.
Proof. induction 1 as [|x l Hx _ IH]; [done|]. cbn. by rewrite Hx, IH. Qed.

Lemma panel_marks st : (renderHistoryPanel st).*2 = isPinned st <$> sortedHistory st.
Proof.
  unfold renderHistoryPanel. induction (sortedHistory st) as [|e l IH]; [done|].
  cbn. by rewrite IH.
Qed.

(** X10: in every reachable state at most one row of the panel carries
    the pin mark, and a row that carries it is the first one. *)
Theorem at_most_one_pinned_row actions :
  ∃ n m, (n ≤ 1)%nat ∧
    (renderHistoryPanel (run actions)).*2 = replicate n true ++ replicate m false.
Proof.
  set (st := run actions).
  exists (length (List.filter (isPinned st) (countyHistory st))),
         (length (List.filter (λ c, negb (isPinned st c)) (countyHistory st))).
  split.
  - unfold isPinned. destruct (pinnedBaselineFips st) as [p|]; [|rewrite filter_none; cbn; lia].
    destruct (decide (p ∈ fips <$> countyHistory st)) as [Hin|Hnot].
    + apply list_elem_of_fmap in Hin as (b & -> & Hin).
      apply list_elem_of_lookup_1 in Hin as [j Hj].
      rewrite (filter_by_fips _ j b); [cbn; lia|apply history_NoDup|done].
    + rewrite filter_no_fips by done. cbn. lia.
  - rewrite panel_marks, sortedHistory_partition, fmap_app. f_equal.
    + apply marks_of_filter, Forall_filter_true.
    + apply marks_of_filter.
      eapply Forall_impl; [apply (Forall_filter_true (λ c, negb (isPinned st c)))|].
      intros d. cbn. by destruct (isPinned st d).
Qed.

(** X11: trends are antisymmetric: a statistic of one county shows up
    against another exactly when the other shows down against the first,
    the two show same together, and no value is up or down against
    itself. *)
Theorem trend_antisymmetric (a b : option number) :
  (trend a b = Some up ↔ trend b a = Some down) ∧
  (trend a b = Some same ↔ trend b a = Some same) ∧
  trend a a ≠ Some up ∧ trend a a ≠ Some down.
Proof.
  pose proof lt_irrefl as Hirr. pose proof lt_asym as Hasym.
  unfold trend, gt, lt in *.
  destruct a as [x|], b as [y|]; try by (split_and!; try split).
  - pose proof (Hirr x) as Hx. pose proof (Hasym x y) as Hxy. rewrite Hx.
    destruct (SFltb x y), (SFltb y x); try (by specialize (Hxy eq_refl));
      split_and!; try split; done.
  - rewrite (Hirr x). by split_and!; try split.
Qed.

End panel_facts.

(** ** Sequences of navigation gestures *)

Section browsing_facts.
Import Navigation Browsing.

Variable counties : list Feature.
Hypothesis counties_distinct : NoDup (id <$> counties).

Implicit Types (layer data opened : list Feature) (state : Feature) (nav : Nav).



















(** With the transition at its end at once, the two parts of
    [zoomToState] make up the function of the navigation module. *)
Lemma zoomToState_then_end state map :
  awaited map = None →
  nav (zoomEnd counties (zoomToState state map))
  = Navigation.zoomToState counties state (nav map).
Proof.
  intros Hidle. unfold zoomToState, Navigation.zoomToState, zoomEnd, zoomOut.
  destruct (currentState (nav map)) as [current|]; [|done].
  destruct (String.eqb (id current) (id state)); [|done]. cbn. done.
Qed.



End browsing_facts.

(** ** Shares that are not numbers *)

Section share_facts.
Import Js Numbers Breakdowns Indicators.
Context `{!Runtime}.

Lemma mul_by_finite_sign sx x s m e :
  has_sign sx x → has_sign (xorb sx s) (mul x (S754_finite s m e)).
Proof.
  destruct x as [s1|s1| |s1 m1 e1]; cbn; try done; intros ->; try done.
  by apply binary_round_aux_sign.
Qed.

Lemma truthy_finite x :
  isFinite x = true → truthy x = true → ∃ s m e, x = S754_finite s m e.
Proof. destruct x as [| | |s m e]; try done. intros _ _. by exists s, m, e. Qed.

Lemma toFixed1_NaN x : toFixed1 x = Literal NaN ↔ x = NaN.
Proof.
  split; [|by intros ->]. unfold toFixed1.
  destruct x as [| | |s m e]; try done.
  destruct (0 <=? e); destruct (_ <=? _); by intros [=].
Qed.

Lemma hundred : ∃ m e, of_Z 100 = S754_finite false m e.
Proof. eexists _, _. by vm_compute. Qed.

(** A quotient by a finite nonzero Number, times one hundred, is a
    Number whenever the dividend is one. *)
Lemma percent_number n s m e :
  n ≠ NaN → mul (div n (S754_finite s m e)) (of_Z 100) ≠ NaN.
Proof.
  intros [sn Hn]%number_has_sign. destruct hundred as (m' & e' & ->).
  eapply has_sign_number, mul_by_finite_sign, div_finite_sign, Hn.
Qed.

Lemma share_NaN n total :
  isFinite total = true → truthy total = true →
  toFixed1 (mul (div n total) (of_Z 100)) = Literal NaN ↔ n = NaN.
Proof.
  intros Hf Ht. destruct (truthy_finite _ Hf Ht) as (s & m & e & ->).
  rewrite toFixed1_NaN. split; [|by intros ->].
  intros Hnan. destruct n as [sn|sn| |sn mn en]; [exfalso..|done|exfalso];
    by apply percent_number in Hnan.
Qed.

(** X13: with a finite nonzero total, a share of
    [computeEthnicityBreakdown] is the text NaN exactly when its count is
    not a number; a category that the record lacks is such a count, so
    that its share reads NaN rather than 0.0. *)
Theorem ethnicity_share_NaN_iff data b :
  isFinite (ToNumber (field data "B03002_001E")) = true →
  computeEthnicityBreakdown data = Some b →
  (white b = Literal NaN ↔ ToNumber (field data "B03002_003E") = NaN) ∧
  (black b = Literal NaN ↔ ToNumber (field data "B03002_004E") = NaN) ∧
  (hispanic b = Literal NaN ↔ ToNumber (field data "B03002_012E") = NaN) ∧
  (asian b = Literal NaN ↔ ToNumber (field data "B03002_006E") = NaN) ∧
  (∀ k, data !! k = None → ToNumber (field data k) = NaN).
Proof.
  intros Hf. unfold computeEthnicityBreakdown.
  destruct (truthy (ToNumber (field data "B03002_001E"))) eqn:Ht; [|done].
  intros [= <-]. cbn [white black hispanic asian].
  split_and!; try by apply share_NaN.
  intros k Hk. unfold field. by rewrite Hk.
Qed.



Lemma add_NaN_l y : add NaN y = NaN.
Proof. done. Qed.

Lemma add_NaN_r x : add x NaN = NaN.
Proof. by destruct x. Qed.

Lemma div_NaN_l y : div NaN y = NaN.
Proof. done. Qed.

Lemma div_NaN_r x : div x NaN = NaN.
Proof. by destruct x. Qed.

(** X15: [calculateLGBTQIndicator] adds its two counts before it
    divides, so that a record that lacks one of them gets the text NaN as
    its percentage and [NaN] as its count, whatever the other count
    is. *)
Theorem indicator_needs_both_counts data r :
  data !! "B11009_003E" = None ∨ data !! "B11009_004E" = None →
  calculateLGBTQIndicator data = Some r →
  percentSameSex r = Literal NaN ∧ sameSexHouseholds r = NaN.
Proof.
  intros Hmiss. unfold calculateLGBTQIndicator.
  destruct (truthy (ToNumber (field data "B11009_001E"))); [|done].
  intros [= <-]. cbn [percentSameSex sameSexHouseholds].
  assert (add (ToNumber (field data "B11009_003E"))
              (ToNumber (field data "B11009_004E")) = NaN) as ->; [|done].
  unfold field. destruct Hmiss as [-> | ->]; cbn [default ToNumber].
  - apply add_NaN_l.
  - apply add_NaN_r.
Qed.

End share_facts.

(** ** Buckets that are not numbers *)

Section bucket_facts.
Import Js Main.
Context `{!Runtime}.

Lemma mul_NaN_l y : mul NaN y = NaN.
Proof. done. Qed.

Lemma total_after_NaN (l : list value) :
  foldl (λ a b, add a (ToNumber b)) NaN l = NaN.
Proof. induction l as [|b l IH]; [done|]. cbn [foldl]. by rewrite add_NaN_l. Qed.

Lemma total_with_NaN (l : list value) acc v :
  v ∈ l → ToNumber v = NaN → foldl (λ a b, add a (ToNumber b)) acc l = NaN.
Proof.
  intros Hin Hv. revert acc. induction Hin as [v l|v b l _ IH]; intros acc; cbn [foldl].
  - by rewrite Hv, add_NaN_r, total_after_NaN.
  - by apply IH.
Qed.

Lemma get_elem (age : object) k v : NoDup age.*1 → (k, v) ∈ age → get age k = v.
Proof.
  induction age as [|[k' v'] age IH]; [by intros _ ?%elem_of_nil|].
  rewrite fmap_cons. intros [Hk' Hnd]%NoDup_cons [[= -> ->]|Hin]%elem_of_cons; cbn.
  - by rewrite String.eqb_refl.
  - destruct (String.eqb_spec k' k) as [->|_]; [|by apply IH].
    destruct Hk'. apply list_elem_of_fmap. by exists (k, v).
Qed.

Lemma get_setBucket (age : object) k v k' :
  get (Bands.setBucket k v age) k'
  = if String.eqb k' k then (if bool_decide (k ∈ age.*1) then v else Undefined)
    else get age k'.
Proof.
  induction age as [|[k0 v0] age IH].
  { cbn. by destruct (String.eqb k' k). }
  change (get ((if String.eqb k0 k then (k0, v) else (k0, v0)) :: Bands.setBucket k v age) k'
          = if String.eqb k' k then (if bool_decide (k ∈ k0 :: age.*1) then v else Undefined)
            else get ((k0, v0) :: age) k').
  destruct (String.eqb_spec k0 k) as [E0|N0]; cbn [get fst];
    destruct (String.eqb_spec k0 k') as [E2|N2];
    destruct (String.eqb_spec k' k) as [E1|N1]; subst; try congruence;
    rewrite ?IH, ?String.eqb_refl; try done.
  - rewrite bool_decide_eq_true_2; [done|apply list_elem_of_here].
  - apply (f_equal (λ b : bool, if b then v else Undefined)), bool_decide_ext.
    rewrite elem_of_cons. split; [by right|]. by intros [->|?].
Qed.

Lemma sumKeys_ext (age age' : object) keys :
  (∀ k, or_else (ToNumber (get age k)) zero = or_else (ToNumber (get age' k)) zero) →
  Bands.sumKeys age keys = Bands.sumKeys age' keys.
Proof.
  intros Hsame. unfold Bands.sumKeys. generalize zero at 2 4.
  induction keys as [|k keys IH]; intros acc; [done|]. cbn [foldl]. by rewrite Hsame, IH.
Qed.

(** X16: one bucket whose value is not a number spoils the whole
    breakdown of [calculateGenerationalBreakdown]: the total and all five
    percentages are [NaN].  The counts are still computed, each as the sum
    of its bands, and they are what they would be with 0 in that
    bucket. *)
Theorem non_numeric_bucket_spoils_percentages age k v :
  NoDup age.*1 → (k, v) ∈ age → ToNumber v = NaN →
  ∃ counts,
    calculateGenerationalBreakdown (Some age)
    = Some (Nested counts
              {| GenAlpha := NaN; GenZ := NaN; Millennials := NaN; GenX := NaN;
                 BabyBoomers := NaN |}
              NaN) ∧
    [GenAlpha counts; GenZ counts; Millennials counts; GenX counts; BabyBoomers counts]
    = Bands.sumKeys age <$> Bands.cohortKeys ∧
    ∀ keys, Bands.sumKeys age keys = Bands.sumKeys (Bands.setBucket k (Num zero) age) keys.
Proof.
  intros Hnd Hin Hv. unfold calculateGenerationalBreakdown.
  assert (ageTotal age = NaN) as ->.
  { unfold ageTotal. apply (total_with_NaN _ _ v); [|done].
    apply list_elem_of_fmap. by exists (k, v). }
  change (strict_eq NaN zero) with false. cbv iota.
  rewrite !div_NaN_r, !mul_NaN_l. eexists. split_and!; [reflexivity| |].
  - cbn [GenAlpha GenZ Millennials GenX BabyBoomers].
    unfold Bands.cohortKeys, Bands.sumKeys. cbn [fmap list_fmap]. reflexivity.
  - intros keys. apply sumKeys_ext. intros k'. rewrite get_setBucket.
    destruct (String.eqb_spec k' k) as [->|_]; [|done].
    rewrite (get_elem age k v Hnd Hin), Hv.
    rewrite bool_decide_eq_true_2; [done|]. apply list_elem_of_fmap. by exists (k, v).
Qed.

End bucket_facts.

(** ** The modal of the fetched statistics *)

Section modal_facts.
Import Js Breakdowns Modal.
Context `{!Runtime}.

Lemma ethnicity_without_total data :
  data !! "B03002_001E" = None → computeEthnicityBreakdown data = None.
Proof. intros Hk. unfold computeEthnicityBreakdown, field. by rewrite Hk. Qed.

Lemma generations_without_total data :
  data !! "B01001_001E" = None → computeGenerationalBreakdown data = None.
Proof. intros Hk. unfold computeGenerationalBreakdown, field. by rewrite Hk. Qed.

Lemma scalars_lookup stats k :
  k ∉ ["medianIncome"; "unemployment"; "insuredPct"; "name"; "source"; "fips"] →
  scalars stats !! k = None.
Proof. intros Hk. by apply not_elem_of_list_to_map_1. Qed.

(** X17: the object that [fetchCountyStats] resolves to carries none
    of the census variables that the breakdown functions read, so that
    the modal of the fetched statistics gets [null] for the ethnicity and
    for the generations of every county, and shows neither section. *)
Theorem fetched_statistics_have_no_breakdowns stats :
  openCountyModalWithStats stats = {| ethnicity := None; generations := None |}.
Proof.
  unfold openCountyModalWithStats.
  rewrite ethnicity_without_total, generations_without_total.
  - unfold field. rewrite scalars_lookup; [done|].
    apply (bool_decide_unpack _). by vm_compute.
  - apply scalars_lookup. apply (bool_decide_unpack _). by vm_compute.
  - apply scalars_lookup. apply (bool_decide_unpack _). by vm_compute.
Qed.

End modal_facts.

(** ** The record of [fetchCensusData] *)

Section acs_facts.
Import Js Numbers Acs.
Context `{!Runtime}.

(** X18: [fetchCensusData] reads its ethnicity counts by position: what
    it calls white is the cell of [B03002_002E], and what it calls black
    is the cell of [B03002_003E], the variable from which
    [computeEthnicityBreakdown] computes the white share.  The two paths
    put different columns under one label. *)
Theorem ethnicity_counts_by_variable row b :
  (12 ≤ length row)%nat →
  Breakdowns.computeEthnicityBreakdown (byVariable ethnicityVars row) = Some b →
  ethnicityBreakdown row
  = {| total := ToNumber (Breakdowns.field (byVariable ethnicityVars row) "B03002_001E");
       white := ToNumber (Breakdowns.field (byVariable ethnicityVars row) "B03002_002E");
       black := ToNumber (Breakdowns.field (byVariable ethnicityVars row) "B03002_003E");
       native := ToNumber (Breakdowns.field (byVariable ethnicityVars row) "B03002_005E");
       asian := ToNumber (Breakdowns.field (byVariable ethnicityVars row) "B03002_007E");
       pacificIslander :=
         ToNumber (Breakdowns.field (byVariable ethnicityVars row) "B03002_008E");
       hispanic :=
         ToNumber (Breakdowns.field (byVariable ethnicityVars row) "B03002_012E") |}
  ∧ Breakdowns.white b
    = toFixed1 (mul (div (black (ethnicityBreakdown row)) (total (ethnicityBreakdown row)))
                    (of_Z 100)).
Proof.
  intros Hlen.
  do 12 (destruct row as [|? row]; [cbn in Hlen; lia|]). clear Hlen.
  pose (cells := [v; v0; v1; v2; v3; v4; v5; v6; v7; v8; v9; v10]).
  assert (∀ i k, ethnicityVars !! i = Some k →
                 Breakdowns.field
                   (byVariable ethnicityVars
                      (v :: v0 :: v1 :: v2 :: v3 :: v4 :: v5 :: v6 :: v7 :: v8 :: v9
                         :: v10 :: row)) k
                 = default Undefined (cells !! i)) as Hfield.
  { intros i k Hk. do 12 (destruct i as [|i]; [injection Hk as <-; by vm_compute|]).
    done. }
  unfold Breakdowns.computeEthnicityBreakdown.
  rewrite (Hfield 0%nat "B03002_001E"), (Hfield 1%nat "B03002_002E"),
    (Hfield 2%nat "B03002_003E"), (Hfield 4%nat "B03002_005E"),
    (Hfield 6%nat "B03002_007E"), (Hfield 7%nat "B03002_008E"),
    (Hfield 11%nat "B03002_012E") by done.
  intros Hb. split; [done|].
  destruct (negb _); [done|]. apply (inj Some) in Hb. by subst b.
Qed.

Lemma or_else_finite x : x = NaN ∨ isFinite x = true → isFinite (or_else x zero) = true.
Proof. intros [->|Hx]; [done|]. unfold or_else. by destruct (truthy x). Qed.

Lemma finite_number x : isFinite x = true → x ≠ NaN.
Proof. by destruct x. Qed.

Lemma percentage_number n d :
  n ≠ NaN → d = NaN ∨ isFinite d = true →
  (if truthy (or_else d zero)
   then Some (mul (div n (or_else d zero)) (of_Z 100)) else None) ≠ Some NaN.
Proof.
  intros Hn Hd. destruct (truthy (or_else d zero)) eqn:Ht; [|done].
  destruct (truthy_finite _ (or_else_finite d Hd) Ht) as (s & m & e & ->).
  intros [= Hnan]. by apply percent_number in Hnan.
Qed.

(** X19: as long as no cell of the household row converts to an
    infinity, every figure of [householdInsights] is [null] or a number:
    none of the four is ever [NaN]. *)
Theorem household_insights_never_NaN household :
  (∀ i, ToNumber (index household i) = NaN
        ∨ isFinite (ToNumber (index household i)) = true) →
  pctSingle (householdInsights household) ≠ Some NaN ∧
  pctNonFamily (householdInsights household) ≠ Some NaN ∧
  avgHouseholdSize (householdInsights household) ≠ Some NaN ∧
  pctMultiUnitHousing (householdInsights household) ≠ Some NaN.
Proof.
  intros Hcells.
  unfold householdInsights. cbn [pctSingle pctNonFamily avgHouseholdSize pctMultiUnitHousing].
  split_and!.
  - apply percentage_number; [|done]. by apply finite_number, or_else_finite.
  - apply percentage_number; [|done]. by apply finite_number, or_else_finite.
  - unfold or_null. by destruct (ToNumber (index household 3)).
  - apply percentage_number; [|done].
    apply add_finite_number; [|by apply or_else_finite].
    apply add_finite_number; [|by apply or_else_finite].
    by apply finite_number, or_else_finite.
Qed.

End acs_facts.

(** ** The income percentile and the order of the dataset *)

Section percentile_order.
Import Js Main.

Lemma sort_insert_Permutation {A} (cmp : A → A → number) x l :
  sort_insert cmp x l ≡ₚ x :: l.
Proof.
  induction l as [|y l IH]; [done|]. cbn. destruct (gt _ _); [|done].
  rewrite IH. apply Permutation_swap.
Qed.

Lemma Array_sort_Permutation {A} (cmp : A → A → number) l : Array_sort cmp l ≡ₚ l.
Proof.
  induction l as [|x l IH]; [done|]. cbn. rewrite sort_insert_Permutation. by f_equiv.
Qed.

Lemma filter_length_Permutation {A} (p : A → bool) l l' :
  l ≡ₚ l' → length (List.filter p l) = length (List.filter p l').
Proof. induction 1; cbn; repeat destruct (p _); cbn; congruence. Qed.

Lemma countyPercentile_Permutation v l l' :
  l ≡ₚ l' → countyPercentile v l = countyPercentile v l'.
Proof.
  intros Hp. unfold countyPercentile. destruct v as [v|]; [|done].
  by rewrite (Permutation_length Hp), (filter_length_Permutation _ _ _ Hp).
Qed.

(** X20: the income percentile of a county does not depend on the order
    in which the dataset lists its records: rearranging them leaves it
    unchanged. *)
Theorem percentile_ignores_order v data data' :
  data ≡ₚ data' →
  countyPercentile v (allCountyIncomes data) = countyPercentile v (allCountyIncomes data').
Proof.
  intros Hp. apply countyPercentile_Permutation. unfold allCountyIncomes.
  rewrite !Array_sort_Permutation. by rewrite Hp.
Qed.

End percentile_order.

(** ** The income histogram *)

Section histogram_facts.
Import Js Numbers Histogram.

Lemma min2_self v : isFinite v = true → min2 v v = v.
Proof.
  destruct v as [s| | |s m e]; try done; intros _.
  - by destruct s.
  - unfold min2. by rewrite lt_irrefl.
Qed.

Lemma max2_self v : isFinite v = true → max2 v v = v.
Proof.
  destruct v as [s| | |s m e]; try done; intros _.
  - by destruct s.
  - unfold max2. by rewrite lt_irrefl.
Qed.

Lemma min2_first v : isFinite v = true → min2 (S754_infinity false) v = v.
Proof. destruct v as [s| | |s m e]; try done; intros _; by destruct s. Qed.

Lemma max2_first v : isFinite v = true → max2 (S754_infinity true) v = v.
Proof. destruct v as [s| | |s m e]; try done; intros _; by destruct s. Qed.

Lemma foldl_fixed {A} (f : A → A → A) v n : f v v = v → foldl f v (replicate n v) = v.
Proof. intros Hv. induction n as [|n IH]; [done|]. cbn. by rewrite Hv. Qed.

Lemma Math_min_equal v n : isFinite v = true → Math_min (replicate (S n) v) = v.
Proof.
  intros Hv. unfold Math_min. cbn [replicate foldl].
  rewrite min2_first by done. by apply foldl_fixed, min2_self.
Qed.

Lemma Math_max_equal v n : isFinite v = true → Math_max (replicate (S n) v) = v.
Proof.
  intros Hv. unfold Math_max. cbn [replicate foldl].
  rewrite max2_first by done. by apply foldl_fixed, max2_self.
Qed.

Lemma counting_stays_thrown (f : number → number) l :
  foldl (λ bins income, bins ≫= λ bins, bump bins (f income)) None l = None.
Proof. by induction l. Qed.

(** X21: when all incomes of the dataset are one and the same finite
    value, for instance when a single county has an income, the bin width
    is 0, the bin index of the first income is [NaN], and the counting
    loop of [animateSparkline] throws instead of drawing the histogram. *)
Theorem equal_incomes_throw v allIncomes :
  isFinite v = true → allIncomes ≠ [] → Forall (λ income, income = v) allIncomes →
  countBins allIncomes = None.
Proof.
  intros Hv Hne Hall.
  assert (allIncomes = replicate (length allIncomes) v) as ->.
  { symmetry. apply replicate_as_Forall. split; [done|].
    eapply Forall_impl; [exact Hall|]. by intros ? ->. }
  destruct (length allIncomes) as [|n] eqn:Hn.
  { by apply length_zero_iff_nil in Hn. }
  unfold countBins. rewrite Math_min_equal, Math_max_equal by done.
  rewrite (sub_self v Hv). cbn [replicate foldl].
  assert (binIndex v (div zero (of_Z numBins)) v = NaN) as Hidx.
  { unfold binIndex. rewrite (sub_self v Hv). by vm_compute. }
  cbn [mbind option_bind]. rewrite Hidx.
  change (bump _ NaN) with (@None (list Bin)). apply counting_stays_thrown.
Qed.

Lemma sum_insert bins i b b' :
  bins !! i = Some b → count b' = S (count b) →
  sum_list (count <$> <[i := b']> bins) = S (sum_list (count <$> bins)).
Proof.
  revert i. induction bins as [|c bins IH]; intros i Hi Hb'; [done|].
  destruct i as [|i].
  - injection Hi as ->. cbn. by rewrite Hb'.
  - change (count c + sum_list (count <$> <[i := b']> bins)
            = S (count c + sum_list (count <$> bins)))%nat.
    rewrite (IH i) by done. lia.
Qed.

Lemma bump_counts bins idx bins' :
  bump bins idx = Some bins' →
  length bins' = length bins ∧
  sum_list (count <$> bins') = S (sum_list (count <$> bins)).
Proof.
  unfold bump. destruct (array_slot idx) as [i|]; [|done].
  destruct (bins !! i) as [b|] eqn:Hi; [|done]. intros [= <-].
  split; [apply length_insert|by eapply sum_insert].
Qed.

Lemma counting_counts (f : number → number) l bins0 bins :
  foldl (λ bins income, bins ≫= λ bins, bump bins (f income)) (Some bins0) l = Some bins →
  length bins = length bins0 ∧
  sum_list (count <$> bins) = (sum_list (count <$> bins0) + length l)%nat.
Proof.
  revert bins0. induction l as [|x l IH]; intros bins0; cbn [foldl].
  - intros [= <-]. split; [done|]. cbn. lia.
  - cbn [mbind option_bind]. destruct (bump bins0 (f x)) as [bins1|] eqn:Hb.
    + intros [Hlen Hsum]%IH. apply bump_counts in Hb as [Hlen1 Hsum1].
      split; [congruence|]. rewrite Hsum, Hsum1. cbn. lia.
    + by rewrite counting_stays_thrown.
Qed.

(** X22: whenever the counting loop completes there are ten bins and
    their counts add up to the number of incomes: every county of the
    dataset is counted in exactly one bin. *)
Theorem every_income_counted_once allIncomes bins :
  countBins allIncomes = Some bins →
  length bins = 10%nat ∧ sum_list (count <$> bins) = length allIncomes.
Proof.
  unfold countBins. intros [Hlen Hsum]%counting_counts. split.
  - rewrite Hlen. reflexivity.
  - rewrite Hsum. reflexivity.
Qed.

End histogram_facts.

(** ** The age bands and the cohorts *)

Section band_facts.
Import Js Main Bands.
Context `{!Runtime}.

(** X23: the labels under which [parseAgeData] files its 23 age bands
    are exactly the labels that [calculateGenerationalBreakdown] sums,
    cohort after cohort and each label once; so every band of a parsed
    row is counted in one cohort and in one only, and no cohort reads a
    label that the row lacks. *)
Theorem every_band_in_one_cohort ageData age :
  parseAgeData (Some ageData) = Some age →
  age.*1 = mjoin cohortKeys ∧
  NoDup age.*1 ∧
  ∀ counts pcts total,
    calculateGenerationalBreakdown (Some age) = Some (Nested counts pcts total) →
    [GenAlpha counts; GenZ counts; Millennials counts; GenX counts; BabyBoomers counts]
    = sumKeys age <$> cohortKeys.
Proof.
  unfold parseAgeData. destruct (_ <? _)%nat; [done|]. intros Hage.
  apply (inj Some) in Hage. split_and!.
  - by subst age.
  - subst age. cbn [fmap list_fmap fst]. apply (bool_decide_unpack _). by vm_compute.
  - clear Hage. intros counts pcts total. unfold calculateGenerationalBreakdown.
    destruct (strict_eq _ _); [done|]. intros Hb. apply (inj Some) in Hb.
    change counts with (match Nested counts pcts total with Nested c _ _ | Flat c => c end).
    rewrite <- Hb. cbv iota. cbn [GenAlpha GenZ Millennials GenX BabyBoomers].
    unfold cohortKeys, sumKeys. cbn [fmap list_fmap]. reflexivity.
Qed.

End band_facts.

(** ** The properties above on the sample data *)

Section further_examples.
Import Js Numbers.
#[local] Existing Instance digits_runtime.

(** X2 on the sample detail row, whose cells are all counts. *)
Lemma incomeDist_never_negative_witness :
  Forall (λ entry, has_sign false entry.2) (Census.incomeDist Samples.detRow).
Proof.
  apply incomeDist_never_negative.
  repeat (constructor; [intros n Hn; vm_compute in Hn; by injection Hn as <-|]).
  constructor.
Defined.

(** X3: the county fetched as state 1, county 1 and awaited is served
    from the cache when it is asked for as 01 and 001, after a failed
    call for another county. *)
Lemma fetch_is_memoised_witness :
  Stats.fetchCountyStats (Stats.cache (Stats.run Cases.fetchedPage Cases.later)) "01" "001"
  = Stats.Cached Cases.fetched_stats.
Proof.
  destruct (fetch_is_memoised Cases.fetchedPage Cases.later "01001" Cases.fetched_stats)
    as (_ & _ & Hcall).
  - by vm_compute.
  - apply (bool_decide_unpack _). by vm_compute.
  - apply Hcall. by vm_compute.
Defined.

(** Without the condition of X3 the object can change: when two calls
    for one county overlap, both miss, and the responses that arrive last
    replace the object which the first call resolved to. *)
Lemma overlapping_calls_replace_object :
  Stats.medianIncome <$> Stats.cache (Stats.run Stats.fresh (take 3 Cases.overlapping))
                         !! "01001"
  = Some (Some (of_Z 68315))
  ∧ Stats.medianIncome <$> Stats.cache (Stats.run Stats.fresh Cases.overlapping) !! "01001"
    = Some (Some (of_Z 70000)).
Proof. split; by vm_compute. Qed.


(** X5: after the sample session the entry under 01001 carries that
    very identifier. *)
Lemma cache_filed_under_fips_witness :
  Stats.fips Cases.fetched_stats = "01001".
Proof.
  refine (proj1 (cache_filed_under_fips Cases.calls "01001" Cases.fetched_stats _)).
  by vm_compute.
Defined.

(** X6: the codes 1 and 1 name the same cache entry as 01 and 001. *)
Lemma cache_key_separates_counties_witness :
  String.length (Stats.cacheKey "1" "1") = 5%nat
  ∧ Stats.cacheKey "1" "1" = Stats.cacheKey "01" "001".
Proof.
  destruct (cache_key_separates_counties "1" "1" "01" "001") as [Hlen Hsame];
    [cbn; lia..|].
  split; [done|]. apply Hsame. by vm_compute.
Defined.

(** X7: a second record of the county of [A] after the first. *)
Lemma revisit_replaces_record_witness :
  History.recordCountyHistory Samples.A'
    (History.recordCountyHistory Samples.A (History.run [History.Visit Samples.B]))
  = History.recordCountyHistory Samples.A' (History.run [History.Visit Samples.B]).
Proof. apply revisit_replaces_record. reflexivity. Defined.

(** X9 on the sample session: [C] is pinned and heads the panel. *)
Lemma baseline_row_is_first_and_alone_witness :
  ∃ slot b rest,
    History.baseline (History.run Cases.session) = Some (slot, b) ∧
    History.renderHistoryPanel (History.run Cases.session)
    = (b, None, History.isPinned (History.run Cases.session) b) :: rest ∧
    Forall (λ row, row.1.2 ≠ None) rest.
Proof.
  apply (baseline_row_is_first_and_alone Cases.session).
  - intros Hempty. vm_compute in Hempty. discriminate.
  - intros p Hp. vm_compute in Hp. injection Hp as <-. split; [done|].
    apply (bool_decide_unpack _). by vm_compute.
Defined.


(** The listing of the walk, and of two quick clicks: a state that is
    left before its zoom has ended never gets its counties drawn. *)
Lemma walks_listed :
  Navigation.visible (Browsing.nav (Browsing.browse Samples.geography Cases.walk))
  = ["01001"; "01003"; "01005"; "02013"]
  ∧ Navigation.visible
      (Browsing.nav (Browsing.browse Samples.geography Cases.quickClicks))
    = ["02013"].
Proof. split; by vm_compute. Qed.

(** X13: without its white count the sample record gets the text NaN
    as its white share. *)
Lemma ethnicity_share_NaN_iff_witness :
  ToNumber (Breakdowns.field Cases.noWhite "B03002_003E") = NaN.
Proof.
  destruct (ethnicity_share_NaN_iff Cases.noWhite
              {| Breakdowns.white := Literal NaN; Breakdowns.black := Digits false 120;
                 Breakdowns.hispanic := Digits false 200;
                 Breakdowns.asian := Digits false 80;
                 Breakdowns.other := Digits false 0 |})
    as (Hwhite & _); [by vm_compute..|].
  by apply Hwhite.
Defined.


(** X15 on the household record that lacks the unmarried count. *)
Lemma indicator_needs_both_counts_witness :
  Indicators.percentSameSex
    {| Indicators.percentSameSex := Literal NaN; Indicators.sameSexHouseholds := NaN;
       Indicators.householdsTotal := of_Z 400 |} = Literal NaN
  ∧ Indicators.calculateLGBTQIndicator Cases.householdRecord
    = Some {| Indicators.percentSameSex := Literal NaN;
              Indicators.sameSexHouseholds := NaN;
              Indicators.householdsTotal := of_Z 400 |}.
Proof.
  assert (Indicators.calculateLGBTQIndicator Cases.householdRecord
          = Some {| Indicators.percentSameSex := Literal NaN;
                    Indicators.sameSexHouseholds := NaN;
                    Indicators.householdsTotal := of_Z 400 |}) as Hr by (by vm_compute).
  split; [|done].
  refine (proj1 (indicator_needs_both_counts Cases.householdRecord _ _ Hr)).
  right. by vm_compute.
Defined.

(** X16 on the age object with a placeholder text in one bucket: the
    ten children under five are still counted. *)
Lemma non_numeric_bucket_spoils_percentages_witness :
  ∃ counts,
    Main.calculateGenerationalBreakdown (Some Cases.spoiledAges)
    = Some (Main.Nested counts
              {| Main.GenAlpha := NaN; Main.GenZ := NaN; Main.Millennials := NaN;
                 Main.GenX := NaN; Main.BabyBoomers := NaN |}
              NaN)
    ∧ Main.GenAlpha counts = of_Z 10 ∧ Main.Millennials counts = of_Z 30.
Proof.
  destruct (non_numeric_bucket_spoils_percentages Cases.spoiledAges "5 to 9 years"
              (Str "n/a")) as (counts & Hresult & Hcounts & _).
  - apply (bool_decide_unpack _). by vm_compute.
  - apply list_elem_of_further, list_elem_of_here.
  - by vm_compute.
  - exists counts. split; [done|].
    injection Hcounts as -> _ -> _ _. split; by vm_compute.
Defined.

(** X18 on the sample ethnicity row: the count filed as black is the
    500 of the white column. *)
Lemma ethnicity_counts_by_variable_witness :
  Acs.black (Acs.ethnicityBreakdown Cases.ethnicityRow) = of_Z 500
  ∧ Acs.white (Acs.ethnicityBreakdown Cases.ethnicityRow) = of_Z 800.
Proof.
  destruct (ethnicity_counts_by_variable Cases.ethnicityRow
              {| Breakdowns.white := Digits false 500; Breakdowns.black := Digits false 120;
                 Breakdowns.hispanic := Digits false 200;
                 Breakdowns.asian := Digits false 80;
                 Breakdowns.other := Digits false 0 |})
    as [Hcounts _]; [cbn; lia|by vm_compute|].
  rewrite Hcounts. by vm_compute.
Defined.

(** X19 on the sample household row. *)
Lemma household_insights_never_NaN_witness :
  Acs.pctSingle (Acs.householdInsights Cases.householdRow) ≠ Some NaN ∧
  Acs.pctNonFamily (Acs.householdInsights Cases.householdRow) ≠ Some NaN ∧
  Acs.avgHouseholdSize (Acs.householdInsights Cases.householdRow) ≠ Some NaN ∧
  Acs.pctMultiUnitHousing (Acs.householdInsights Cases.householdRow) ≠ Some NaN.
Proof.
  apply household_insights_never_NaN. intros i.
  do 10 (destruct i as [|i]; [right; by vm_compute|]).
  left. reflexivity.
Defined.

(** X20 on two records in both orders. *)
Lemma percentile_ignores_order_witness :
  Main.countyPercentile (Some (of_Z 60000))
    (Main.allCountyIncomes [Cases.richer; Cases.poorer])
  = Main.countyPercentile (Some (of_Z 60000))
      (Main.allCountyIncomes [Cases.poorer; Cases.richer]).
Proof. apply percentile_ignores_order. apply Permutation_swap. Defined.

(** X21 on three counties with an income of 50000 each. *)
Lemma equal_incomes_throw_witness :
  Histogram.countBins [of_Z 50000; of_Z 50000; of_Z 50000] = None.
Proof.
  apply (equal_incomes_throw (of_Z 50000)); [reflexivity|discriminate|].
  repeat constructor.
Defined.

(** X22 on the four sample incomes, which the loop counts without
    throwing. *)
Lemma every_income_counted_once_witness :
  length Cases.counted = 10%nat
  ∧ sum_list (Histogram.count <$> Cases.counted) = length Cases.incomes.
Proof. apply every_income_counted_once. by vm_compute. Defined.

(** X23 on the sample response row. *)
Lemma every_band_in_one_cohort_witness :
  Cases.parsedAges.*1 = mjoin Bands.cohortKeys.
Proof.
  refine (proj1 (every_band_in_one_cohort Samples.age_response Cases.parsedAges _)).
  by vm_compute.
Defined.

End further_examples.
